(** * TDECat dashboard (APP.py): unit conversions, X-ray classification and
      rest-frame spectra

    A shallow embedding of the numeric code of [Section 4: App/APP.py]:

    - [swift_vega_to_ab] with the table [zeropoints_new] (lines 24-39);
    - the catalogue as it is loaded (lines 72-103) and the names of the files
      of an object;
    - the optical, UVOT and X-ray parts of [update_individual_plots]
      (lines 242-430): the columns taken from the data frame, the boolean
      masks and the groups plotted;
    - the spectrum part of [update_individual_plots] (lines 441-536): the
      redshift of the catalogue row and the rest-frame wavelengths.

    numpy's float64 is IEEE 754 binary64.  Its comparisons, sums, differences
    and quotients are modelled bit for bit with the executable specification
    [SpecFloat] of the standard library (NaN and signed zeros included).
    [AB_magnitude_to_flux] (lines 14-22) calls numpy's power and logarithm,
    whose binary64 results IEEE 754 does not fix bit for bit; it has no
    embedding here. *)

From Stdlib Require Import ZArith Bool String Ascii List Lia.
From Stdlib Require Import Floats.SpecFloat.
From stdpp Require Import gmap strings list fin_maps sorting list_numbers.

Local Open Scope Z_scope.

Abbreviation float := spec_float.

(** ** binary64 numbers *)

Module F64.

Definition prec : Z := 53.
Definition emax : Z := 1024.

(** A Python [int] used where numpy wants a float64. *)
Definition of_Z (n : Z) : float := binary_normalize prec emax n 0 false.

Definition add : float -> float -> float := SFadd prec emax.
Definition sub : float -> float -> float := SFsub prec emax.
Definition div : float -> float -> float := SFdiv prec emax.

(** The decimal literal [n / d] ([d] a power of ten, both below 2^53):
    Python reads a literal as the double nearest to it, and the quotient of
    two doubles is the double nearest to the exact quotient. *)
Definition lit (n d : Z) : float := div (of_Z n) (of_Z d).

Definition zero : float := S754_zero false.
Definition one : float := S754_finite false 4503599627370496 (-52).
Definition two : float := S754_finite false 4503599627370496 (-51).

(** Python's [x == y], [x < y] and [x >= y] on float64. *)
Definition eqb : float -> float -> bool := SFeqb.
Definition ltb : float -> float -> bool := SFltb.
Definition geb (x y : float) : bool := SFleb y x.
Definition leb : float -> float -> bool := SFleb.

Definition is_nan (x : float) : bool :=
  match x with S754_nan => true | _ => false end.

(** A value that a float64 can hold. *)
Definition valid (x : float) : bool := valid_binary prec emax x.

End F64.

(** ** Python strings (ASCII) *)

Module PyStr.

(** [str.upper] on ASCII text: a-z go to A-Z, every other byte stays. *)
Definition upper_char (c : ascii) : ascii :=
  let n := nat_of_ascii c in
  if ((97 <=? n) && (n <=? 122))%nat then ascii_of_nat (n - 32) else c.

Fixpoint upper (s : string) : string :=
  match s with
  | EmptyString => EmptyString
  | String c s' => String (upper_char c) (upper s')
  end.

(** [str.isspace] on ASCII: tab, LF, VT, FF, CR, FS, GS, RS, US, space. *)
Definition isspace (c : ascii) : bool :=
  let n := nat_of_ascii c in
  (((9 <=? n) && (n <=? 13)) || ((28 <=? n) && (n <=? 32)))%nat.

Fixpoint lstrip (s : string) : string :=
  match s with
  | EmptyString => EmptyString
  | String c s' => if isspace c then lstrip s' else s
  end.

Definition rstrip (s : string) : string :=
  String.rev (lstrip (String.rev s)).

(** [str.strip()] with no argument. *)
Definition strip (s : string) : string := rstrip (lstrip s).

End PyStr.

(** ** Exceptions *)

Inductive exn : Type :=
| KeyError (key : string)
| ValueError
| TypeError.

Inductive result (A : Type) : Type :=
| Ok (a : A)
| Raise (e : exn).
Arguments Ok {A} a.
Arguments Raise {A} e.

#[global] Instance result_ret : MRet result := fun A a => Ok a.
#[global] Instance result_bind : MBind result := fun A B k m =>
  match m with
  | Ok a => k a
  | Raise e => Raise e
  end.

Definition is_ok {A} (r : result A) : bool :=
  match r with Ok _ => true | Raise _ => false end.

(** ** Swift UVOT: Vega to AB (lines 24-39) *)

Module Uvot.

(** [zeropoints_new]: filter code -> {'vega': .., 'ab': ..}. *)
Definition zeropoints_new : gmap string (gmap string float) :=
  <["vv" := <["vega" := F64.lit 1789 100]> (<["ab" := F64.lit 1788 100]> ∅)]> (
  <["bb" := <["vega" := F64.lit 1911 100]> (<["ab" := F64.lit 1898 100]> ∅)]> (
  <["uu" := <["vega" := F64.lit 1834 100]> (<["ab" := F64.lit 1936 100]> ∅)]> (
  <["w1" := <["vega" := F64.lit 1744 100]> (<["ab" := F64.lit 1895 100]> ∅)]> (
  <["m2" := <["vega" := F64.lit 1685 100]> (<["ab" := F64.lit 1854 100]> ∅)]> (
  <["w2" := <["vega" := F64.lit 1738 100]> (<["ab" := F64.lit 1911 100]> ∅)]> ∅))))).

(** [d[k]] on a dict. *)
Definition getitem {V} (d : gmap string V) (k : string) : result V :=
  match d !! k with
  | Some v => Ok v
  | None => Raise (KeyError k)
  end.

(** [offset = zeropoints_new[filt]['ab'] - zeropoints_new[filt]['vega']] *)
Definition offset (filt : string) : result float :=
  zp_ab ← getitem zeropoints_new filt;
  ab ← getitem zp_ab "ab";
  zp_vega ← getitem zeropoints_new filt;
  vega ← getitem zp_vega "vega";
  mret (F64.sub ab vega).

(** [swift_vega_to_ab(m_vega, filt)] on one magnitude. *)
Definition swift_vega_to_ab (m_vega : float) (filt : string) : result float :=
  off ← offset filt;
  mret (F64.add m_vega off).

(** The call of line 276 passes a whole column: the offset is looked up
    once and added to every cell. *)
Definition swift_vega_to_ab_series (m_vega : list float) (filt : string)
  : result (list float) :=
  off ← offset filt;
  mret ((fun m => F64.add m off) <$> m_vega).

Definition uvot_filters : list string := ["w2"; "m2"; "w1"; "uu"; "bb"; "vv"].

End Uvot.

(** ** pandas data frames and plotly figures *)

(** A data frame as [pd.read_csv] gives it for the light-curve files: the
    number of rows, the float64 columns by name, and the text (object)
    columns by name, where a cell left empty in the file is [None]. *)
Record DataFrame : Type := {
  index : nat;
  floats : gmap string (list float);
  texts : gmap string (list (option string))
}.

(** Every column has one cell per row. *)
Definition wf_frame (df : DataFrame) : Prop :=
  map_Forall (fun _ v => length v = index df) (floats df) /\
  map_Forall (fun _ v => length v = index df) (texts df).

(** [df[col]] for a float column and for a text column. *)
Definition getitem (df : DataFrame) (col : string) : result (list float) :=
  match floats df !! col with
  | Some v => Ok v
  | None => Raise (KeyError col)
  end.

Definition getitem_text (df : DataFrame) (col : string)
  : result (list (option string)) :=
  match texts df !! col with
  | Some v => Ok v
  | None => Raise (KeyError col)
  end.

(** [col in df.columns] *)
Definition has_column (df : DataFrame) (col : string) : bool :=
  match floats df !! col, texts df !! col with
  | None, None => false
  | _, _ => true
  end.

(** [df[col] = v] *)
Definition setitem (df : DataFrame) (col : string) (v : list float) : DataFrame :=
  {| index := index df; floats := <[col := v]> (floats df); texts := texts df |}.

(** [np.zeros(len(df))] and [pd.Series(0, index=df.index).values] *)
Definition zeros (df : DataFrame) : list float := replicate (index df) F64.zero.

(** [a[mask]] for a boolean [mask] as long as [a]. *)
Fixpoint select {A} (mask : list bool) (a : list A) : list A :=
  match mask, a with
  | b :: mask', x :: a' => if b then x :: select mask' a' else select mask' a'
  | _, _ => []
  end.

(** [go.Scatter(x=.., y=.., error_y=dict(array=.., arrayminus=..), name=..)] *)
Record trace : Type := Scatter {
  name : string;
  x : list float;
  y : list float;
  error_y : option (list float * list float)
}.

Record Figure : Type := {
  data : list trace;
  annotations : list string
}.

Definition add_trace (t : trace) (fig : Figure) : Figure :=
  {| data := data fig ++ [t]; annotations := annotations fig |}.

Definition add_annotation (text : string) (fig : Figure) : Figure :=
  {| data := data fig; annotations := annotations fig ++ [text] |}.

Definition empty_figure : Figure := {| data := []; annotations := [] |}.

(** ** X-ray light curve (lines 299-430) *)

Module Xray.

(** The local variables of the [try] block, lines 303-362. *)
Record locals : Type := {
  src_flux : list float;
  src_err_lo : list float;
  src_err_hi : list float;
  src_snr : list float;
  src_ul_vals : list float;
  flux_fit_pl : list float;
  fit_pl_err_lo : list float;
  fit_pl_err_hi : list float;
  flux_fit_bb : list float;
  fit_bb_err_lo : list float;
  fit_bb_err_hi : list float;
  best_model_raw : list string;
  mjd_vals : list float;
  ul_mask : list bool;
  det_mask : list bool;
  pl_mask : list bool;
  bb_mask : list bool;
  src_det_mask : list bool
}.

(** [.fillna('').astype(str).str.upper().str.strip()] on one cell *)
Definition normalize (c : option string) : string :=
  PyStr.strip (PyStr.upper (default EmptyString c)).

(** Lines 334-340. *)
Definition ul_mask_of (src_flux src_snr : list float) (snr_threshold : float)
  : list bool :=
  zip_with orb ((fun f => F64.eqb f F64.zero) <$> src_flux)
               ((fun s => F64.ltb s snr_threshold) <$> src_snr).

Definition det_mask_of (src_snr : list float) (snr_threshold : float)
    (ul_mask : list bool) : list bool :=
  zip_with andb ((fun s => F64.geb s snr_threshold) <$> src_snr)
                (negb <$> ul_mask).

Definition label_mask_of (det_mask : list bool) (best_model_raw : list string)
    (label : string) : list bool :=
  zip_with andb det_mask ((fun l => String.eqb l label) <$> best_model_raw).

(** Lines 303-340, for a threshold that is a number and a file whose
    columns have the types of [typed_xray] below: a column that is read as
    numbers is looked up among the float64 columns only. *)
Definition xray_locals (dfl_xray : DataFrame) (snr_threshold : float)
  : result locals :=
  mjd_start ← getitem dfl_xray "mjd_start";
  mjd_stop ← getitem dfl_xray "mjd_stop";
  let dfl_xray := setitem dfl_xray "MJD"
    (zip_with (fun a b => F64.div (F64.add a b) F64.two) mjd_start mjd_stop) in
  src_flux ← getitem dfl_xray "src_flux";
  src_err_lo ← getitem dfl_xray "src_flux_errinf";
  src_err_hi ← getitem dfl_xray "src_flux_errsup";
  let src_snr := default (zeros dfl_xray) (floats dfl_xray !! "src_flux_SNR") in
  let src_ul_vals := default (zeros dfl_xray) (floats dfl_xray !! "src_flux_UL") in
  let flux_fit_pl := default (zeros dfl_xray) (floats dfl_xray !! "flux_fit_pl") in
  let fit_pl_err_lo := default (zeros dfl_xray) (floats dfl_xray !! "flux_fit_pl_errinf") in
  let fit_pl_err_hi := default (zeros dfl_xray) (floats dfl_xray !! "flux_fit_pl_errsup") in
  let flux_fit_bb := default (zeros dfl_xray) (floats dfl_xray !! "flux_fit_bb") in
  let fit_bb_err_lo := default (zeros dfl_xray) (floats dfl_xray !! "flux_fit_bb_errinf") in
  let fit_bb_err_hi := default (zeros dfl_xray) (floats dfl_xray !! "flux_fit_bb_errsup") in
  best_model ← getitem_text dfl_xray "best_model";
  let best_model_raw := normalize <$> best_model in
  mjd_vals ← getitem dfl_xray "MJD";
  let ul_mask := ul_mask_of src_flux src_snr snr_threshold in
  let det_mask := det_mask_of src_snr snr_threshold ul_mask in
  let pl_mask := label_mask_of det_mask best_model_raw "PL" in
  let bb_mask := label_mask_of det_mask best_model_raw "BB" in
  let src_det_mask := label_mask_of det_mask best_model_raw EmptyString in
  mret {| src_flux := src_flux; src_err_lo := src_err_lo; src_err_hi := src_err_hi;
          src_snr := src_snr; src_ul_vals := src_ul_vals;
          flux_fit_pl := flux_fit_pl; fit_pl_err_lo := fit_pl_err_lo;
          fit_pl_err_hi := fit_pl_err_hi;
          flux_fit_bb := flux_fit_bb; fit_bb_err_lo := fit_bb_err_lo;
          fit_bb_err_hi := fit_bb_err_hi;
          best_model_raw := best_model_raw; mjd_vals := mjd_vals;
          ul_mask := ul_mask; det_mask := det_mask; pl_mask := pl_mask;
          bb_mask := bb_mask; src_det_mask := src_det_mask |}.

(** The columns that lines 306-331 read with [df[col]]: without one of them
    the [try] block raises [KeyError]. *)
Definition required_columns : list string :=
  ["mjd_start"; "mjd_stop"; "src_flux"; "src_flux_errinf"; "src_flux_errsup"].

(** The columns that lines 312-321 replace by zeros when the file does not
    have them. *)
Definition optional_columns : list string :=
  ["src_flux_SNR"; "src_flux_UL";
   "flux_fit_pl"; "flux_fit_pl_errinf"; "flux_fit_pl_errsup";
   "flux_fit_bb"; "flux_fit_bb_errinf"; "flux_fit_bb_errsup"].

Definition has_required (df : DataFrame) : Prop :=
  Forall (fun col => is_Some (floats df !! col)) required_columns /\
  is_Some (texts df !! "best_model").

(** The types that the block expects of the file: none of the columns that
    it reads as numbers is a text column (a cell that is no number makes
    [pd.read_csv] give one), and [best_model] is no float64 column (which it
    is when all its cells are empty or hold numbers). *)
Definition typed_xray (df : DataFrame) : Prop :=
  Forall (fun col => texts df !! col = None) (required_columns ++ optional_columns) /\
  floats df !! "best_model" = None.

(** The local variable of lines 312-321 that holds the values of an
    optional column. *)
Definition optional_value (l : locals) (col : string) : option (list float) :=
  if String.eqb col "src_flux_SNR" then Some (src_snr l)
  else if String.eqb col "src_flux_UL" then Some (src_ul_vals l)
  else if String.eqb col "flux_fit_pl" then Some (flux_fit_pl l)
  else if String.eqb col "flux_fit_pl_errinf" then Some (fit_pl_err_lo l)
  else if String.eqb col "flux_fit_pl_errsup" then Some (fit_pl_err_hi l)
  else if String.eqb col "flux_fit_bb" then Some (flux_fit_bb l)
  else if String.eqb col "flux_fit_bb_errinf" then Some (fit_bb_err_lo l)
  else if String.eqb col "flux_fit_bb_errsup" then Some (fit_bb_err_hi l)
  else None.

(** Lines 342-362: the four groups of points that are plotted. *)
Definition group_src (l : locals) : trace :=
  Scatter "Detection (raw src_flux)"
    (select (src_det_mask l) (mjd_vals l)) (select (src_det_mask l) (src_flux l))
    (Some (select (src_det_mask l) (src_err_hi l),
           select (src_det_mask l) (src_err_lo l))).

Definition group_pl (l : locals) : trace :=
  Scatter "Detection (PL fit)"
    (select (pl_mask l) (mjd_vals l)) (select (pl_mask l) (flux_fit_pl l))
    (Some (select (pl_mask l) (fit_pl_err_hi l),
           select (pl_mask l) (fit_pl_err_lo l))).

Definition group_bb (l : locals) : trace :=
  Scatter "Detection (BB fit)"
    (select (bb_mask l) (mjd_vals l)) (select (bb_mask l) (flux_fit_bb l))
    (Some (select (bb_mask l) (fit_bb_err_hi l),
           select (bb_mask l) (fit_bb_err_lo l))).

Definition group_ul (l : locals) : trace :=
  Scatter "Upper limits"
    (select (ul_mask l) (mjd_vals l)) (select (ul_mask l) (src_ul_vals l)) None.

(** Lines 364-424: a group is drawn when it has a point. *)
Definition add_group (t : trace) (fig : Figure) : Figure :=
  match x t with
  | [] => fig
  | _ :: _ => add_trace t fig
  end.

(** The X-ray panel.  [file] is [None] when the light-curve file does not
    exist, and the outcome of [pd.read_csv] otherwise. *)
Definition xray_fig (file : option (result DataFrame)) (snr_threshold : float)
  : Figure :=
  match file with
  | None => add_annotation "No X-ray data available" empty_figure
  | Some read =>
      match (dfl_xray ← read; xray_locals dfl_xray snr_threshold) with
      | Ok l =>
          add_group (group_ul l) (add_group (group_bb l)
            (add_group (group_pl l) (add_group (group_src l) empty_figure)))
      | Raise _ => add_annotation "Error loading X-ray data" empty_figure
      end
  end.

End Xray.

(** ** Spectrum, corrected to the rest frame (lines 441-536) *)

Module Spectrum.

(** A cell of the catalogue as [row['Redshift']] gives it: a float64 (NaN
    for a cell left empty in a numeric column), a string, or [None]. *)
Inductive cell : Type :=
| Number (v : float)
| Text (s : string)
| PyNone.

(** [pd.notna(c)] *)
Definition notna (c : cell) : bool :=
  match c with
  | Number v => negb (F64.is_nan v)
  | Text _ => true
  | PyNone => false
  end.

Section Redshift.

(** Python's built-in [float] on a string: the number read, or [None]
    where it raises [ValueError]. *)
Variable float_of_str : string -> option float.

(** [float(c)] *)
Definition py_float (c : cell) : result float :=
  match c with
  | Number v => Ok v
  | Text s =>
      match float_of_str s with
      | Some v => Ok v
      | None => Raise ValueError
      end
  | PyNone => Raise TypeError
  end.

(** Lines 455-459:
    [try: z = float(row['Redshift']) if pd.notna(row['Redshift']) else 0.0]
    [except: z = 0.0] *)
Definition redshift (c : cell) : float :=
  match (if notna c then py_float c else Ok F64.zero) with
  | Ok z => z
  | Raise _ => F64.zero
  end.

End Redshift.

(** Line 484: [wavelength_rest = wavelength_obs / (1.0 + z)] *)
Definition wavelength_rest (wavelength_obs : list float) (z : float) : list float :=
  (fun w => F64.div w (F64.add F64.one z)) <$> wavelength_obs.

(** A spectrum file read with [header=None]: its columns, left to right. *)
Definition spec_frame : Type := list (list float).

(** [df_spec.empty or df_spec.shape[1] < 2] *)
Definition skipped (df_spec : spec_frame) : bool :=
  match df_spec with
  | [] => true
  | c0 :: rest => (Nat.eqb (length c0) 0) || (Nat.ltb (length df_spec) 2)
  end.

(** Lines 469-493, one turn of the loop over the files of the folder: a file
    that cannot be read, or is empty, or has one column only, adds nothing. *)
Definition spectrum_step (z : float) (fig : Figure)
    (entry : string * result spec_frame) : Figure :=
  match entry with
  | (file, Raise _) => fig
  | (file, Ok df_spec) =>
      if skipped df_spec then fig
      else
        match df_spec with
        | wavelength_obs :: intensity :: _ =>
            add_trace (Scatter file (wavelength_rest wavelength_obs z) intensity None) fig
        | _ => fig
        end
  end.

End Spectrum.

(** ** The spectrum panel (lines 461-536) *)

Module SpectrumPanel.
Import Spectrum.

(** What [pd.read_csv(file_path, delim_whitespace=True, comment='#',
    header=None)] gives for a file of the folder: an exception; a table whose
    columns hold numbers; or a table whose first column holds a string
    (dtype object), of which the numbers of rows and of columns are kept.
    (A table with numbers in its first column and strings in its second one
    is not covered.) *)
Inductive spec_file : Type :=
| Unreadable (e : exn)
| Numbers (df_spec : spec_frame)
| Strings (rows columns : nat).

(** Lines 471-493, one turn of the loop, on the figure and [all_y_vals]: a
    file that cannot be read, or is empty, or has one column only, is passed
    over; dividing a string by [1.0 + z] raises [TypeError]. *)
Definition spectrum_turn (z : float) (st : Figure * list float)
    (entry : string * spec_file) : result (Figure * list float) :=
  match entry with
  | (file, Unreadable _) => Ok st
  | (file, Numbers df_spec) =>
      if skipped df_spec then Ok st
      else
        match df_spec with
        | wavelength_obs :: intensity :: _ =>
            Ok (add_trace (Scatter file (wavelength_rest wavelength_obs z) intensity None)
                  (fst st),
                snd st ++ intensity)
        | _ => Ok st
        end
  | (file, Strings rows columns) =>
      if Nat.eqb rows 0 || Nat.ltb columns 2 then Ok st else Raise TypeError
  end.

(** The loop inside the outer [try]: an exception stops it and leaves the
    traces added so far. *)
Fixpoint spectrum_loop (z : float) (files : list (string * spec_file))
    (st : Figure * list float) : Figure * list float * option exn :=
  match files with
  | [] => (st, None)
  | entry :: rest =>
      match spectrum_turn z st entry with
      | Ok st' => spectrum_loop z rest st'
      | Raise e => (st, Some e)
      end
  end.

(** Lines 502-506. *)
Definition rest_lines : list (string * float) :=
  [("H α", F64.lit 65628 10); ("H β", F64.lit 48613 10); ("He II", F64.of_Z 4686)].

(** The spectrum panel.  [folder] is [None] when the folder of the object
    does not exist, and otherwise the outcome of [os.listdir]: an exception,
    or the names of the folder, each with the outcome of reading it. *)
Definition spectrum_fig (folder : option (result (list (string * spec_file))))
    (z : float) : Figure :=
  match folder with
  | None => add_annotation "No spectrum folder found" empty_figure
  | Some (Raise _) => add_annotation "Error loading spectrum" empty_figure
  | Some (Ok listing) =>
      let matching_files :=
        List.filter (fun f => negb (String.prefix "." (fst f))) listing in
      match matching_files with
      | [] => add_annotation "No spectrum files found" empty_figure
      | _ :: _ =>
          match spectrum_loop z matching_files (empty_figure, []) with
          | ((fig, _), Some _) => add_annotation "Error loading spectrum" fig
          | ((fig, all_y_vals), None) =>
              let fig :=
                match data fig with
                | [] => add_annotation "No valid spectrum traces found" fig
                | _ :: _ => fig
                end in
              match all_y_vals with
              | [] => fig
              | _ :: _ => foldl (fun fig line => add_annotation (fst line) fig) fig rest_lines
              end
          end
      end
  end.

(** The names that the loop looks at. *)
Definition visible (listing : list (string * spec_file)) : list (string * spec_file) :=
  List.filter (fun f => negb (String.prefix "." (fst f))) listing.

(** The trace that a file gives: none when it cannot be read, is empty or
    has fewer than two columns. *)
Definition file_trace (z : float) (entry : string * spec_file) : option trace :=
  match entry with
  | (file, Numbers (wavelength_obs :: intensity :: others)) =>
      if skipped (wavelength_obs :: intensity :: others) then None
      else Some (Scatter file (wavelength_rest wavelength_obs z) intensity None)
  | _ => None
  end.

(** A file that stops the loop: a table with a row, two columns or more, and
    a string in its first column. *)
Definition stops (entry : string * spec_file) : bool :=
  match entry with
  | (_, Strings rows columns) => negb (Nat.eqb rows 0 || Nat.ltb columns 2)
  | _ => false
  end.

(** The files before the first one that stops the loop. *)
Fixpoint until_stop (files : list (string * spec_file)) : list (string * spec_file) :=
  match files with
  | [] => []
  | entry :: rest => if stops entry then [] else entry :: until_stop rest
  end.

End SpectrumPanel.

(** ** Sample light curves *)

Module Samples.

(** A light-curve file with the columns that are always there and the SNR
    column; one row per triple (source flux, SNR, best model). *)
Definition xray_frame (rows : list (float * float * option string)) : DataFrame :=
  let n := length rows in
  {| index := n;
     floats :=
       <["mjd_start" := replicate n (F64.of_Z 58000)]> (
       <["mjd_stop" := replicate n (F64.of_Z 58001)]> (
       <["src_flux" := (fun r => r.1.1) <$> rows]> (
       <["src_flux_errinf" := replicate n F64.one]> (
       <["src_flux_errsup" := replicate n F64.one]> (
       <["src_flux_SNR" := (fun r => r.1.2) <$> rows]> ∅)))));
     texts := <["best_model" := (fun r => r.2) <$> rows]> ∅ |}.

(** src_flux = 0 with SNR = 1000. *)
Definition zero_flux : DataFrame :=
  xray_frame [(F64.zero, F64.of_Z 1000, Some "PL")].

(** A detection whose best model is neither PL nor BB. *)
Definition other_label : DataFrame :=
  xray_frame [(F64.one, F64.of_Z 5, Some "apec")].

(** A row whose SNR cell is empty in the file. *)
Definition nan_snr : DataFrame :=
  xray_frame [(F64.one, S754_nan, None)].

(** One row for each group. *)
Definition four_rows : DataFrame :=
  xray_frame [(F64.one, F64.of_Z 5, None);
              (F64.one, F64.of_Z 4, Some " pl ");
              (F64.one, F64.of_Z 7, Some "bb");
              (F64.one, F64.of_Z 2, Some "PL")].

(** The same file without the SNR column. *)
Definition no_snr_column : DataFrame :=
  {| index := index four_rows;
     floats := delete "src_flux_SNR" (floats four_rows);
     texts := texts four_rows |}.

(** A stand-in for Python's [float] on strings, enough for the examples. *)
Definition float_of_str (s : string) : option float :=
  if String.eqb s "0.05" then Some (F64.lit 5 100) else None.

End Samples.

(** ** More of Python's strings *)

Module PyText.

(** Every character of [s] is whitespace ([s.strip() == ''] holds for such
    strings only, see [strip_empty_iff]). *)
Fixpoint blank (s : string) : bool :=
  match s with
  | EmptyString => true
  | String c s' => PyStr.isspace c && blank s'
  end.

(** Some character of [s] is whitespace. *)
Fixpoint has_space (s : string) : bool :=
  match s with
  | EmptyString => false
  | String c s' => PyStr.isspace c || has_space s'
  end.

(** [new.join(s)] around every character, as [replace] does for an empty
    [old]. *)
Fixpoint between (new s : string) : string :=
  match s with
  | EmptyString => EmptyString
  | String c s' => String c (String.append new (between new s'))
  end.

(** The scan of [str.replace] for a non-empty [old]: [skip] counts the
    characters of the last match that are still to be dropped. *)
Fixpoint replace_from (old new : string) (skip : nat) (s : string) : string :=
  match s with
  | EmptyString => EmptyString
  | String c s' =>
      match skip with
      | S k => replace_from old new k s'
      | O =>
          if String.prefix old s
          then String.append new (replace_from old new (String.length old - 1)%nat s')
          else String c (replace_from old new 0 s')
      end
  end.

(** [s.replace(old, new)]: every occurrence of [old], left to right, without
    overlap. *)
Definition replace (old new s : string) : string :=
  match old with
  | EmptyString => String.append new (between new s)
  | String _ _ => replace_from old new 0 s
  end.

(** The scan of [str.split()]: [cur] is the word being read. *)
Fixpoint split_from (cur : option string) (s : string) : list string :=
  match s with
  | EmptyString =>
      match cur with
      | Some w => [w]
      | None => []
      end
  | String c s' =>
      if PyStr.isspace c
      then match cur with
           | Some w => w :: split_from None s'
           | None => split_from None s'
           end
      else split_from (Some (String.append (default EmptyString cur) (String c EmptyString))) s'
  end.

(** [s.split()] with no argument: the words between runs of whitespace. *)
Definition split (s : string) : list string := split_from None s.

(** A word: not empty and without whitespace. *)
Definition word (w : string) : Prop := w <> EmptyString /\ has_space w = false.

End PyText.

(** ** Magnitude light curves: the optical and the UVOT panels *)

(** [go.Scatter(x=.., y=.., error_y=dict(type='data', array=..), ..)] with a
    symmetric error bar; [m_marker] is the pair (symbol, color) when the call
    gives one. *)
Record mag_trace : Type := MagScatter {
  m_name : string;
  m_x : list float;
  m_y : list float;
  m_error : list float;
  m_marker : option (string * string)
}.

Record MagFigure : Type := {
  m_data : list mag_trace;
  m_annotations : list string
}.

Definition empty_mag_figure : MagFigure := {| m_data := []; m_annotations := [] |}.

Definition add_mag_trace (t : mag_trace) (fig : MagFigure) : MagFigure :=
  {| m_data := m_data fig ++ [t]; m_annotations := m_annotations fig |}.

Definition add_mag_annotation (text : string) (fig : MagFigure) : MagFigure :=
  {| m_data := m_data fig; m_annotations := m_annotations fig ++ [text] |}.

(** ** UVOT light curve (lines 41-58 and 266-296) *)

Module UvotPanel.

Definition uvot_colors : gmap string string :=
  <["w2" := "violet"]> (<["m2" := "purple"]> (<["w1" := "blue"]> (
  <["uu" := "green"]> (<["bb" := "orange"]> (<["vv" := "red"]> ∅))))).

Definition uvot_markers : gmap string string :=
  <["w2" := "circle"]> (<["m2" := "square"]> (<["w1" := "diamond"]> (
  <["uu" := "triangle-up"]> (<["bb" := "triangle-down"]> (<["vv" := "pentagon"]> ∅))))).

(** [f"mag_{flt}_src"] and [f"magerr_{flt}_src"] *)
Definition mag_col (flt : string) : string :=
  String.append "mag_" (String.append flt "_src").

Definition err_col (flt : string) : string :=
  String.append "magerr_" (String.append flt "_src").

(** The types that the loop expects of the file: the magnitudes and the
    errors of a filter are numbers, so that none of these columns is a text
    column. *)
Definition typed_uvot (dfl_uvot : DataFrame) : Prop :=
  Forall (fun flt => texts dfl_uvot !! mag_col flt = None /\
                     texts dfl_uvot !! err_col flt = None) Uvot.uvot_filters.

(** [mag_col in dfl_uvot.columns and err_col in dfl_uvot.columns], for a
    file with the types of [typed_uvot]: the two columns are looked up among
    the float64 columns. *)
Definition has_filter (dfl_uvot : DataFrame) (flt : string) : bool :=
  match floats dfl_uvot !! mag_col flt, floats dfl_uvot !! err_col flt with
  | Some _, Some _ => true
  | _, _ => false
  end.

(** Lines 272-287, one turn of the loop: the trace of the filter, or nothing
    when the file lacks one of its two columns. *)
Definition uvot_trace (dfl_uvot : DataFrame) (flt : string)
  : result (option mag_trace) :=
  match floats dfl_uvot !! mag_col flt, floats dfl_uvot !! err_col flt with
  | Some mag, Some err =>
      AB_MAG ← Uvot.swift_vega_to_ab_series mag flt;
      mjd ← getitem dfl_uvot "mjd";
      symbol ← Uvot.getitem uvot_markers flt;
      color ← Uvot.getitem uvot_colors flt;
      mret (Some (MagScatter (String.append "UVOT " (PyStr.upper flt))
                    mjd AB_MAG err (Some (symbol, color))))
  | _, _ => mret None
  end.

(** The loop over the filters inside the [try]: an exception stops it and
    leaves the traces added so far. *)
Fixpoint uvot_loop (dfl_uvot : DataFrame) (filters : list string)
    (fig : MagFigure) : MagFigure * option exn :=
  match filters with
  | [] => (fig, None)
  | flt :: rest =>
      match uvot_trace dfl_uvot flt with
      | Raise e => (fig, Some e)
      | Ok None => uvot_loop dfl_uvot rest fig
      | Ok (Some t) => uvot_loop dfl_uvot rest (add_mag_trace t fig)
      end
  end.

(** The UVOT panel.  [file] is [None] when the light-curve file does not
    exist, and the outcome of [pd.read_csv] otherwise. *)
Definition uvot_fig (file : option (result DataFrame)) : MagFigure :=
  match file with
  | None => add_mag_annotation "No UVOT data available" empty_mag_figure
  | Some (Raise _) => add_mag_annotation "Error loading UVOT data" empty_mag_figure
  | Some (Ok dfl_uvot) =>
      match uvot_loop dfl_uvot Uvot.uvot_filters empty_mag_figure with
      | (fig, None) => fig
      | (fig, Some _) => add_mag_annotation "Error loading UVOT data" fig
      end
  end.

(** What a trace of the panel is: the times of the [mjd] column, the Vega
    magnitudes of a filter shifted by [ab - vega] of that filter, and its
    error column as it is. *)
Definition uvot_trace_of (df : DataFrame) (mjd : list float) (t : mag_trace) : Prop :=
  exists flt mag err zp ab vega,
    flt ∈ Uvot.uvot_filters /\
    floats df !! mag_col flt = Some mag /\ floats df !! err_col flt = Some err /\
    Uvot.zeropoints_new !! flt = Some zp /\ zp !! "ab" = Some ab /\
    zp !! "vega" = Some vega /\
    m_name t = String.append "UVOT " (PyStr.upper flt) /\ m_x t = mjd /\
    m_y t = (fun m => F64.add m (F64.sub ab vega)) <$> mag /\ m_error t = err.

End UvotPanel.

(** ** The catalogue (lines 72-103) and the names of the files of an object
       (lines 236-243 and 441-453) *)

Module Catalogue.

(** A row of [TDE_catalogue_all.csv] as [pd.read_csv] gives it: a name cell
    is a string, or [None] (NaN) when it is empty in the file. *)
Record row : Type := {
  AT_name : option string;
  Alternative_name : option string;
  ZTF_name : option string;
  Gaia_alert_name : option string;
  Redshift : Spectrum.cell
}.

(** [pd.notna(c) and c.strip() != ''] *)
Definition filled (c : option string) : bool :=
  match c with
  | Some s => negb (String.eqb (PyStr.strip s) EmptyString)
  | None => false
  end.

(** Lines 77-82, the [else] branch: the alternative name, stripped. *)
Definition alternative_plain (r : row) : string :=
  match Alternative_name r with
  | Some s =>
      if negb (String.eqb (PyStr.strip s) EmptyString) then PyStr.strip s
      else EmptyString
  | None => EmptyString
  end.

(** Lines 77-82: [df['AT_name_plain']] *)
Definition AT_name_plain (r : row) : string :=
  match AT_name r with
  | Some s =>
      if negb (String.eqb (PyStr.strip s) EmptyString)
      then PyText.replace "AT " "AT" (PyStr.strip s)
      else alternative_plain r
  | None => alternative_plain r
  end.

(** Line 83: [df['ZTF name'].str.strip()] *)
Definition ZTF_name_plain (r : row) : option string :=
  PyStr.strip <$> ZTF_name r.

(** What [xs[-1]] gives: the last item, or [IndexError] on an empty list. *)
Inductive indexed (A : Type) : Type :=
| Item (a : A)
| IndexError.
Arguments Item {A} a.
Arguments IndexError {A}.

(** Lines 86-90. *)
Definition extract_identifier (name : option string) : indexed (option string) :=
  match name with
  | Some s =>
      if negb (String.eqb (PyStr.strip s) EmptyString)
      then match last (PyText.split s) with
           | Some w => Item (Some w)
           | None => IndexError
           end
      else Item None
  | None => Item None
  end.

Definition base_url_at : string := "https://www.wis-tns.org/object/".
Definition base_url_ztf : string := "https://alerce.online/object/".
Definition base_url_gaia : string := "http://gsaweb.ast.cam.ac.uk/alerts/alert/".

(** Lines 101-103: ['[' + name + ']' + '(' + base_url + identifier + ')'] on
    two columns; a missing cell on either side gives a missing cell. *)
Definition markdown_link (base_url : string) (name identifier : option string)
  : option string :=
  match name, identifier with
  | Some n, Some i =>
      Some (String.append (String.append (String.append (String.append
              (String.append (String.append "[" n) "]") "(") base_url) i) ")")
  | _, _ => None
  end.

(** The row of [df] once lines 77-103 have run: the three name columns hold
    the links.  [load] below gives it row by row, for a catalogue that these
    lines load: each of its name columns holds text in some row (a column
    with no text at all is a float64 column, on which lines 83 and 101-103
    raise). *)
Record loaded : Type := {
  l_AT_name : option string;
  l_ZTF_name : option string;
  l_Gaia_alert_name : option string;
  l_Alternative_name : option string;
  l_Redshift : Spectrum.cell;
  l_AT_name_plain : string;
  l_ZTF_name_plain : option string;
  l_identifier : option string;
  l_identifier2 : option string;
  l_identifier3 : option string
}.

Definition load (r : row) : indexed loaded :=
  match extract_identifier (AT_name r), extract_identifier (ZTF_name r),
        extract_identifier (Gaia_alert_name r) with
  | Item identifier, Item identifier2, Item identifier3 =>
      Item {| l_AT_name := markdown_link base_url_at (AT_name r) identifier;
              l_ZTF_name := markdown_link base_url_ztf (ZTF_name r) identifier2;
              l_Gaia_alert_name :=
                markdown_link base_url_gaia (Gaia_alert_name r) identifier3;
              l_Alternative_name := Alternative_name r;
              l_Redshift := Redshift r;
              l_AT_name_plain := AT_name_plain r;
              l_ZTF_name_plain := ZTF_name_plain r;
              l_identifier := identifier;
              l_identifier2 := identifier2;
              l_identifier3 := identifier3 |}
  | _, _, _ => IndexError
  end.

(** Lines 238-239: [name_for_file]; it is [None] (NaN) when the ZTF name is
    used and is missing. *)
Definition name_for_file (row : loaded) : option string :=
  if negb (String.eqb (PyStr.strip (l_AT_name_plain row)) EmptyString)
  then Some (l_AT_name_plain row)
  else l_ZTF_name_plain row.

(** Line 243, the file name given to [os.path.join]:
    ["target_" + name_for_file + "_photometry.csv"]; adding a string and NaN
    raises [TypeError], and no [try] is around this line. *)
Definition optical_file_name (row : loaded) : result string :=
  match name_for_file row with
  | Some n => Ok (String.append (String.append "target_" n) "_photometry.csv")
  | None => Raise TypeError
  end.

(** Lines 444-451: [spec_name]. *)
Definition spec_name (row : loaded) : option string :=
  if filled (name_for_file row) then name_for_file row
  else if filled (l_AT_name row)
  then (fun s => PyText.replace "AT " "AT" (PyStr.strip s)) <$> l_AT_name row
  else if filled (l_Alternative_name row)
  then PyStr.strip <$> l_Alternative_name row
  else name_for_file row.

End Catalogue.

(** ** Optical/infrared light curve (lines 242-263) *)

Module Optical.

(** The keys of [groupby('Filter')] for a [Filter] column that holds text,
    which come sorted as strings and once each: [insert_key] puts one more
    key in its place.  (A column of numbers only is no text column; its keys
    come in the order of the numbers.) *)
Fixpoint insert_key (k : string) (keys : list string) : list string :=
  match keys with
  | [] => [k]
  | k' :: rest =>
      match String.compare k k' with
      | Lt => k :: keys
      | Eq => keys
      | Gt => k' :: insert_key k rest
      end
  end.

(** The order of strings that [groupby] sorts by. *)
Definition slt (a b : string) : Prop := String.compare a b = Lt.

(** The rows whose [Filter] cell is missing are in no group. *)
Fixpoint group_keys (col : list (option string)) : list string :=
  match col with
  | [] => []
  | Some k :: col' => insert_key k (group_keys col')
  | None :: col' => group_keys col'
  end.

(** The rows of the group of [filt]. *)
Definition group_mask (col : list (option string)) (filt : string) : list bool :=
  (fun c => bool_decide (c = Some filt)) <$> col.

(** The number of rows in the group of [filt]. *)
Definition rows_of (col : list (option string)) (filt : string) : nat :=
  length (List.filter (fun c => bool_decide (c = Some filt)) col).

(** The trace of the group of [filt], from the three columns of the frame. *)
Definition group_trace (col : list (option string)) (MJD Magnitude Error : list float)
    (filt : string) : mag_trace :=
  MagScatter filt (select (group_mask col filt) MJD)
    (select (group_mask col filt) Magnitude)
    (select (group_mask col filt) Error) None.

(** Lines 248-254, one turn of the loop over the groups. *)
Definition optical_trace (dfl_opt : DataFrame) (col : list (option string))
    (filt : string) : result mag_trace :=
  MJD ← getitem dfl_opt "MJD";
  Magnitude ← getitem dfl_opt "Magnitude";
  Error ← getitem dfl_opt "Error";
  mret (group_trace col MJD Magnitude Error filt).

(** The loop inside the [try]: an exception stops it and leaves the traces
    added so far. *)
Fixpoint optical_loop (dfl_opt : DataFrame) (col : list (option string))
    (keys : list string) (fig : MagFigure) : MagFigure * option exn :=
  match keys with
  | [] => (fig, None)
  | filt :: rest =>
      match optical_trace dfl_opt col filt with
      | Raise e => (fig, Some e)
      | Ok t => optical_loop dfl_opt col rest (add_mag_trace t fig)
      end
  end.

(** The optical panel, for a file whose [Filter] column holds text.  [file]
    is [None] when the photometry file does not exist, and the outcome of
    [pd.read_csv] otherwise. *)
Definition optical_fig (file : option (result DataFrame)) : MagFigure :=
  match file with
  | None => add_mag_annotation "No Optical/Infrared data available" empty_mag_figure
  | Some (Raise _) =>
      add_mag_annotation "Error loading Optical/Infrared data" empty_mag_figure
  | Some (Ok dfl_opt) =>
      match getitem_text dfl_opt "Filter" with
      | Raise _ =>
          add_mag_annotation "Error loading Optical/Infrared data" empty_mag_figure
      | Ok col =>
          match optical_loop dfl_opt col (group_keys col) empty_mag_figure with
          | (fig, None) => fig
          | (fig, Some _) =>
              add_mag_annotation "Error loading Optical/Infrared data" fig
          end
      end
  end.

End Optical.

(** ** More sample data *)

Module MoreSamples.

(** A UVOT file with the columns of w1 and vv, and the magnitudes of bb
    without their errors. *)
Definition uvot_two_filters : DataFrame :=
  {| index := 2;
     floats :=
       <["mjd" := [F64.of_Z 58000; F64.of_Z 58001]]> (
       <["mag_w1_src" := [F64.of_Z 15; F64.of_Z 16]]> (
       <["magerr_w1_src" := [F64.one; F64.one]]> (
       <["mag_vv_src" := [F64.of_Z 17; F64.of_Z 18]]> (
       <["magerr_vv_src" := [F64.one; F64.one]]> (
       <["mag_bb_src" := [F64.of_Z 15; F64.of_Z 16]]> ∅)))));
     texts := ∅ |}.


(** A photometry file: two rows in r, one in g, one without a filter. *)
Definition optical_rg : DataFrame :=
  {| index := 4;
     floats :=
       <["MJD" := [F64.of_Z 1; F64.of_Z 2; F64.of_Z 3; F64.of_Z 4]]> (
       <["Magnitude" := [F64.of_Z 15; F64.of_Z 16; F64.of_Z 17; F64.of_Z 18]]> (
       <["Error" := [F64.one; F64.one; F64.one; F64.one]]> ∅));
     texts := <["Filter" := [Some "r"; Some "g"; None; Some "r"]]> ∅ |}.


(** An object with an AT name and a ZTF name, and an object with no name. *)
Definition named : Catalogue.row :=
  {| Catalogue.AT_name := Some " AT 2018hyz ";
     Catalogue.Alternative_name := None;
     Catalogue.ZTF_name := Some "ZTF18acpdvos";
     Catalogue.Gaia_alert_name := None;
     Catalogue.Redshift := Spectrum.Number (F64.lit 457 10000) |}.

Definition nameless : Catalogue.row :=
  {| Catalogue.AT_name := Some "  ";
     Catalogue.Alternative_name := None;
     Catalogue.ZTF_name := None;
     Catalogue.Gaia_alert_name := None;
     Catalogue.Redshift := Spectrum.PyNone |}.

(** The rows of [df] that they give (see [load]). *)
Definition named_loaded : Catalogue.loaded :=
  {| Catalogue.l_AT_name :=
       Some "[ AT 2018hyz ](https://www.wis-tns.org/object/2018hyz)";
     Catalogue.l_ZTF_name :=
       Some "[ZTF18acpdvos](https://alerce.online/object/ZTF18acpdvos)";
     Catalogue.l_Gaia_alert_name := None;
     Catalogue.l_Alternative_name := None;
     Catalogue.l_Redshift := Spectrum.Number (F64.lit 457 10000);
     Catalogue.l_AT_name_plain := "AT2018hyz";
     Catalogue.l_ZTF_name_plain := Some "ZTF18acpdvos";
     Catalogue.l_identifier := Some "2018hyz";
     Catalogue.l_identifier2 := Some "ZTF18acpdvos";
     Catalogue.l_identifier3 := None |}.

Definition nameless_loaded : Catalogue.loaded :=
  {| Catalogue.l_AT_name := None;
     Catalogue.l_ZTF_name := None;
     Catalogue.l_Gaia_alert_name := None;
     Catalogue.l_Alternative_name := None;
     Catalogue.l_Redshift := Spectrum.PyNone;
     Catalogue.l_AT_name_plain := EmptyString;
     Catalogue.l_ZTF_name_plain := None;
     Catalogue.l_identifier := None;
     Catalogue.l_identifier2 := None;
     Catalogue.l_identifier3 := None |}.

(** A folder of spectra: a hidden file, a spectrum, a file with a header
    line, and one more spectrum. *)
Definition spectra : list (string * SpectrumPanel.spec_file) :=
  [(".DS_Store", SpectrumPanel.Unreadable ValueError);
   ("a.dat", SpectrumPanel.Numbers [[F64.of_Z 4000; F64.of_Z 6000]; [F64.one; F64.two]]);
   ("b.dat", SpectrumPanel.Strings 3 2);
   ("c.dat", SpectrumPanel.Numbers [[F64.of_Z 5000]; [F64.one]])].

End MoreSamples.

(** * Properties *)

(** ** Order of binary64 numbers *)

Ltac cmp_split :=
  repeat match goal with
  | H : context [Pos.compare_cont Eq ?a ?b] |- _ =>
      change (Pos.compare_cont Eq a b) with (Pos.compare a b) in H
  | |- context [Pos.compare_cont Eq ?a ?b] =>
      change (Pos.compare_cont Eq a b) with (Pos.compare a b)
  end;
  repeat match goal with
  | H : context [Z.compare ?a ?b] |- _ => destruct (Z.compare_spec a b); simpl in H
  | H : context [Pos.compare ?a ?b] |- _ => destruct (Pos.compare_spec a b); simpl in H
  | |- context [Z.compare ?a ?b] => destruct (Z.compare_spec a b); simpl
  | |- context [Pos.compare ?a ?b] => destruct (Pos.compare_spec a b); simpl
  end;
  try discriminate; try reflexivity; try lia.

Ltac float_cases a := destruct a as [[]|[]| |[] ? ?].

Lemma geb_ltb_false s t : F64.geb s t = true -> F64.ltb s t = false.
Proof.
  unfold F64.geb, F64.ltb, SFleb, SFltb, SFcompare.
  float_cases s; float_cases t; simpl; intros H; cmp_split.
Qed.

Lemma leb_trans a b c : F64.leb a b = true -> F64.leb b c = true -> F64.leb a c = true.
Proof.
  unfold F64.leb, SFleb, SFcompare.
  float_cases a; float_cases b; float_cases c; simpl; intros H1 H2; cmp_split.
Qed.

Lemma ltb_leb_trans a b c : F64.ltb a b = true -> F64.leb b c = true -> F64.ltb a c = true.
Proof.
  unfold F64.leb, F64.ltb, SFleb, SFltb, SFcompare.
  float_cases a; float_cases b; float_cases c; simpl; intros H1 H2; cmp_split.
Qed.

Lemma ltb_false_geb s t :
  F64.is_nan s = false -> F64.is_nan t = false ->
  F64.ltb s t = false -> F64.geb s t = true.
Proof.
  unfold F64.geb, F64.ltb, SFleb, SFltb, SFcompare.
  float_cases s; float_cases t; simpl; intros Hs Ht H; try discriminate; cmp_split.
Qed.

Lemma leb_not_nan a b : F64.leb a b = true -> F64.is_nan b = false.
Proof. unfold F64.leb, SFleb, SFcompare. float_cases a; float_cases b; simpl; done. Qed.

Lemma geb_nan s t : F64.is_nan s = true -> F64.geb s t = false.
Proof. unfold F64.geb, SFleb, SFcompare. float_cases s; float_cases t; simpl; done. Qed.

(** ** Column arithmetic *)

Lemma lookup_zip_with_Some2 {A B C} (f : A -> B -> C) (l : list A) (k : list B) i a b :
  l !! i = Some a -> k !! i = Some b -> zip_with f l k !! i = Some (f a b).
Proof. intros Ha Hb. rewrite lookup_zip_with, Ha. simpl. by rewrite Hb. Qed.

(** ** Boolean indexing *)

Lemma select_elem_of {A} (mask : list bool) (a : list A) x :
  x ∈ select mask a <-> exists i, mask !! i = Some true /\ a !! i = Some x.
Proof.
  revert a. induction mask as [|b mask IH]; intros [|y a]; cbn [select].
  - split; [by intros ?%elem_of_nil|by intros (i & ? & ?)].
  - split; [by intros ?%elem_of_nil|by intros (i & ? & ?)].
  - split; [by intros ?%elem_of_nil|by intros (i & ? & ?)].
  - destruct b.
    + rewrite elem_of_cons, IH. split.
      * intros [->|(i & Hm & Ha)]; [by exists 0%nat|by exists (S i)].
      * intros ([|i] & Hm & Ha); [left; by injection Ha|right; by exists i].
    + rewrite IH. split.
      * intros (i & Hm & Ha). by exists (S i).
      * intros ([|i] & Hm & Ha); [discriminate Hm|by exists i].
Qed.

(** Four masks that hold one and only one [True] in every row select every
    row once. *)
Lemma select_partition {A} (m1 m2 m3 m4 : list bool) (a : list A) :
  length m1 = length a -> length m2 = length a ->
  length m3 = length a -> length m4 = length a ->
  (forall i b1 b2 b3 b4,
     m1 !! i = Some b1 -> m2 !! i = Some b2 -> m3 !! i = Some b3 ->
     m4 !! i = Some b4 ->
     (Nat.b2n b1 + Nat.b2n b2 + Nat.b2n b3 + Nat.b2n b4 = 1)%nat) ->
  (length (select m1 a) + length (select m2 a) + length (select m3 a)
   + length (select m4 a) = length a)%nat.
Proof.
  revert m1 m2 m3 m4. induction a as [|y a IH]; intros m1 m2 m3 m4 H1 H2 H3 H4 Hone.
  - destruct m1, m2, m3, m4; try discriminate. reflexivity.
  - destruct m1 as [|b1 m1], m2 as [|b2 m2], m3 as [|b3 m3], m4 as [|b4 m4];
      try discriminate.
    cbn [length] in H1, H2, H3, H4.
    pose proof (Hone 0%nat b1 b2 b3 b4 eq_refl eq_refl eq_refl eq_refl) as H0.
    assert (Htl : (length (select m1 a) + length (select m2 a)
                   + length (select m3 a) + length (select m4 a) = length a)%nat).
    { apply IH; try lia. intros i. apply (Hone (S i)). }
    cbn [select]. destruct b1, b2, b3, b4; cbn in H0; try discriminate H0;
      cbn [length]; lia.
Qed.

(** ** The X-ray masks, row by row *)

(** A column other than [MJD] is read from the frame as it was loaded. *)
Ltac drop_mjd H :=
  repeat match type of H with
  | context [<["MJD" := ?v]> ?m !! ?k] =>
      lazymatch k with
      | "MJD" => fail
      | _ => rewrite (lookup_insert_ne m "MJD" k v) in H by done
      end
  end.

Section XrayRows.
Import Xray.

Lemma xray_locals_Ok df thr l :
  xray_locals df thr = Ok l ->
  exists bm,
    floats df !! "src_flux" = Some (src_flux l) /\
    src_snr l = default (zeros df) (floats df !! "src_flux_SNR") /\
    texts df !! "best_model" = Some bm /\
    best_model_raw l = normalize <$> bm /\
    ul_mask l = ul_mask_of (src_flux l) (src_snr l) thr /\
    det_mask l = det_mask_of (src_snr l) thr (ul_mask l) /\
    pl_mask l = label_mask_of (det_mask l) (best_model_raw l) "PL" /\
    bb_mask l = label_mask_of (det_mask l) (best_model_raw l) "BB" /\
    src_det_mask l = label_mask_of (det_mask l) (best_model_raw l) EmptyString.
Proof.
  unfold xray_locals, getitem, getitem_text, setitem. cbn [floats texts index].
  intros H.
  destruct (floats df !! "mjd_start") as [start|]; [|unfold mbind, result_bind in H; discriminate H].
  destruct (floats df !! "mjd_stop") as [stop|]; [|unfold mbind, result_bind in H; discriminate H].
  cbn [mbind result_bind] in H.
  drop_mjd H. rewrite lookup_insert_eq in H.
  destruct (floats df !! "src_flux") as [flux|]; [|unfold mbind, result_bind in H; discriminate H].
  destruct (floats df !! "src_flux_errinf") as [lo|]; [|unfold mbind, result_bind in H; discriminate H].
  destruct (floats df !! "src_flux_errsup") as [hi|]; [|unfold mbind, result_bind in H; discriminate H].
  destruct (texts df !! "best_model") as [bm|]; [|unfold mbind, result_bind in H; discriminate H].
  cbn [mbind result_bind mret result_ret] in H.
  injection H as <-. exists bm. cbn. done.
Qed.

Lemma wf_floats df col v :
  wf_frame df -> floats df !! col = Some v -> length v = index df.
Proof. intros [Hf _] Hv. exact (Hf col v Hv). Qed.

Lemma wf_optional df col :
  wf_frame df -> length (default (zeros df) (floats df !! col)) = index df.
Proof.
  intros Hwf. destruct (floats df !! col) as [v|] eqn:Hv; simpl.
  - by eapply wf_floats.
  - unfold zeros. by rewrite length_replicate.
Qed.

Lemma xray_lengths df thr l :
  wf_frame df -> xray_locals df thr = Ok l ->
  length (src_flux l) = index df /\ length (src_snr l) = index df /\
  length (best_model_raw l) = index df.
Proof.
  intros Hwf (bm & Hflux & -> & Hbm & -> & _)%xray_locals_Ok.
  split; [by eapply wf_floats|]. split; [by apply wf_optional|].
  rewrite length_fmap. destruct Hwf as [_ Ht]. exact (Ht _ _ Hbm).
Qed.

(** What the masks hold at row [i], from the cells of that row. *)
Lemma xray_row df thr l i f :
  wf_frame df -> xray_locals df thr = Ok l -> src_flux l !! i = Some f ->
  exists s lab,
    src_snr l !! i = Some s /\ best_model_raw l !! i = Some lab /\
    ul_mask l !! i = Some (F64.eqb f F64.zero || F64.ltb s thr) /\
    det_mask l !! i =
      Some (F64.geb s thr && negb (F64.eqb f F64.zero || F64.ltb s thr)) /\
    pl_mask l !! i =
      Some (F64.geb s thr && negb (F64.eqb f F64.zero || F64.ltb s thr)
            && String.eqb lab "PL") /\
    bb_mask l !! i =
      Some (F64.geb s thr && negb (F64.eqb f F64.zero || F64.ltb s thr)
            && String.eqb lab "BB") /\
    src_det_mask l !! i =
      Some (F64.geb s thr && negb (F64.eqb f F64.zero || F64.ltb s thr)
            && String.eqb lab EmptyString).
Proof.
  intros Hwf Hok Hf.
  destruct (xray_lengths _ _ _ Hwf Hok) as (Hlf & Hls & Hlb).
  pose proof (lookup_lt_Some _ _ _ Hf) as Hi.
  destruct (lookup_lt_is_Some_2 (src_snr l) i ltac:(lia)) as [s Hs].
  destruct (lookup_lt_is_Some_2 (best_model_raw l) i ltac:(lia)) as [lab Hlab].
  exists s, lab.
  apply xray_locals_Ok in Hok as (bm & _ & _ & _ & _ & Hul & Hdet & Hpl & Hbb & Hsrc).
  assert (Hul_i : ul_mask l !! i = Some (F64.eqb f F64.zero || F64.ltb s thr)).
  { rewrite Hul. unfold ul_mask_of.
    apply lookup_zip_with_Some2; rewrite list_lookup_fmap; [by rewrite Hf|by rewrite Hs]. }
  assert (Hdet_i : det_mask l !! i =
      Some (F64.geb s thr && negb (F64.eqb f F64.zero || F64.ltb s thr))).
  { rewrite Hdet. unfold det_mask_of.
    apply lookup_zip_with_Some2; rewrite list_lookup_fmap; [by rewrite Hs|by rewrite Hul_i]. }
  repeat split; try done.
  all: first [rewrite Hpl | rewrite Hbb | rewrite Hsrc]; unfold label_mask_of;
    (apply lookup_zip_with_Some2; [done|rewrite list_lookup_fmap; by rewrite Hlab]).
Qed.

Lemma xray_mjd_vals df thr l :
  xray_locals df thr = Ok l ->
  exists mjd_start mjd_stop,
    floats df !! "mjd_start" = Some mjd_start /\
    floats df !! "mjd_stop" = Some mjd_stop /\
    mjd_vals l =
      zip_with (fun a b => F64.div (F64.add a b) F64.two) mjd_start mjd_stop.
Proof.
  unfold xray_locals, getitem, getitem_text, setitem. cbn [floats texts index].
  intros H.
  destruct (floats df !! "mjd_start") as [start|];
    [|unfold mbind, result_bind in H; discriminate H].
  destruct (floats df !! "mjd_stop") as [stop|];
    [|unfold mbind, result_bind in H; discriminate H].
  cbn [mbind result_bind] in H.
  drop_mjd H. rewrite lookup_insert_eq in H.
  destruct (floats df !! "src_flux") as [flux|];
    [|unfold mbind, result_bind in H; discriminate H].
  destruct (floats df !! "src_flux_errinf") as [lo|];
    [|unfold mbind, result_bind in H; discriminate H].
  destruct (floats df !! "src_flux_errsup") as [hi|];
    [|unfold mbind, result_bind in H; discriminate H].
  destruct (texts df !! "best_model") as [bm|];
    [|unfold mbind, result_bind in H; discriminate H].
  cbn [mbind result_bind mret result_ret] in H.
  injection H as <-. exists start, stop. cbn. done.
Qed.

Lemma xray_locals_inv df thr l :
  xray_locals df thr = Ok l ->
  exists mjd_start mjd_stop bm,
    floats df !! "mjd_start" = Some mjd_start /\
    floats df !! "mjd_stop" = Some mjd_stop /\
    floats df !! "src_flux" = Some (src_flux l) /\
    floats df !! "src_flux_errinf" = Some (src_err_lo l) /\
    floats df !! "src_flux_errsup" = Some (src_err_hi l) /\
    texts df !! "best_model" = Some bm /\
    src_ul_vals l = default (zeros df) (floats df !! "src_flux_UL") /\
    flux_fit_pl l = default (zeros df) (floats df !! "flux_fit_pl") /\
    fit_pl_err_lo l = default (zeros df) (floats df !! "flux_fit_pl_errinf") /\
    fit_pl_err_hi l = default (zeros df) (floats df !! "flux_fit_pl_errsup") /\
    flux_fit_bb l = default (zeros df) (floats df !! "flux_fit_bb") /\
    fit_bb_err_lo l = default (zeros df) (floats df !! "flux_fit_bb_errinf") /\
    fit_bb_err_hi l = default (zeros df) (floats df !! "flux_fit_bb_errsup").
Proof.
  unfold xray_locals, getitem, getitem_text, setitem. cbn [floats texts index].
  intros H.
  destruct (floats df !! "mjd_start") as [start|];
    [|unfold mbind, result_bind in H; discriminate H].
  destruct (floats df !! "mjd_stop") as [stop|];
    [|unfold mbind, result_bind in H; discriminate H].
  cbn [mbind result_bind] in H.
  drop_mjd H. rewrite lookup_insert_eq in H.
  destruct (floats df !! "src_flux") as [flux|];
    [|unfold mbind, result_bind in H; discriminate H].
  destruct (floats df !! "src_flux_errinf") as [lo|];
    [|unfold mbind, result_bind in H; discriminate H].
  destruct (floats df !! "src_flux_errsup") as [hi|];
    [|unfold mbind, result_bind in H; discriminate H].
  destruct (texts df !! "best_model") as [bm|];
    [|unfold mbind, result_bind in H; discriminate H].
  cbn [mbind result_bind mret result_ret] in H.
  injection H as <-. exists start, stop, bm. cbn. done.
Qed.

(** Every array of the block has one cell per row of the frame. *)
Lemma xray_mask_lengths df thr l :
  wf_frame df -> xray_locals df thr = Ok l ->
  length (mjd_vals l) = index df /\
  length (ul_mask l) = index df /\ length (det_mask l) = index df /\
  length (pl_mask l) = index df /\ length (bb_mask l) = index df /\
  length (src_det_mask l) = index df.
Proof.
  intros Hwf Hok.
  destruct (xray_lengths _ _ _ Hwf Hok) as (Hlf & Hls & Hlb).
  pose proof Hok as (start & stop & Hstart & Hstop & Hmjd)%xray_mjd_vals.
  pose proof Hok as (bm & _ & _ & _ & _ & Hul & Hdet & Hpl & Hbb & Hsrc)%xray_locals_Ok.
  assert (Hlu : length (ul_mask l) = index df).
  { rewrite Hul. unfold ul_mask_of. rewrite length_zip_with, !length_fmap. lia. }
  assert (Hld : length (det_mask l) = index df).
  { rewrite Hdet. unfold det_mask_of. rewrite length_zip_with, !length_fmap. lia. }
  assert (Hll : forall lab, length (label_mask_of (det_mask l) (best_model_raw l) lab)
                            = index df).
  { intros lab. unfold label_mask_of. rewrite length_zip_with, !length_fmap. lia. }
  rewrite Hpl, Hbb, Hsrc, !Hll, Hmjd, length_zip_with.
  rewrite (wf_floats _ _ _ Hwf Hstart), (wf_floats _ _ _ Hwf Hstop).
  repeat split; try done. lia.
Qed.

Lemma xray_row_lt df thr l i :
  wf_frame df -> xray_locals df thr = Ok l -> (i < index df)%nat ->
  exists f, src_flux l !! i = Some f.
Proof.
  intros Hwf Hok Hi. destruct (xray_lengths _ _ _ Hwf Hok) as (Hlf & _).
  apply lookup_lt_is_Some_2. lia.
Qed.
End XrayRows.

(** ** Division by one *)

Lemma div_eucl_div_mod a b : Z.div_eucl a b = (a / b, a mod b).
Proof. unfold Z.div, Z.modulo. by destruct (Z.div_eucl a b). Qed.

(** The exponent of a number that fits in binary64 is either the least one
    (zero and subnormal numbers), or the mantissa has all its 53 bits. *)
Lemma bounded_cases m e :
  SpecFloat.bounded F64.prec F64.emax m e = true ->
  e <= 971 /\
  ((e = -1074 /\ Z.pos (digits2_pos m) <= 53) \/
   (-1074 < e /\ Z.pos (digits2_pos m) = 53)).
Proof.
  unfold SpecFloat.bounded, canonical_mantissa, fexp, emin, F64.prec, F64.emax.
  intros [H1 H2]%andb_prop. apply Z.eqb_eq in H1. apply Z.leb_le in H2. lia.
Qed.

Lemma div_core_one m e :
  SpecFloat.bounded F64.prec F64.emax m e = true ->
  SFdiv_core_binary F64.prec F64.emax (Z.pos m) e 4503599627370496 (-52) =
    if e =? -1074 then (Z.pos m, e, loc_Exact) else (Z.pos m~0, e - 1, loc_Exact).
Proof.
  intros Hb. destruct (bounded_cases _ _ Hb) as [He Hc].
  unfold SFdiv_core_binary. cbn [Zdigits2].
  change (Z.pos (digits2_pos 4503599627370496)) with 53.
  set (e' := Z.min _ _).
  assert (He' : e' = if e =? -1074 then e else e - 1).
  { subst e'. unfold fexp, emin, F64.prec, F64.emax.
    destruct (Z.eqb_spec e (-1074)); lia. }
  rewrite He'. destruct (Z.eqb_spec e (-1074)) as [->|Hne].
  - change (-1074 - -52 - -1074) with 52. cbv iota.
    rewrite div_eucl_div_mod, Z.shiftl_mul_pow2 by lia.
    rewrite Z.div_mul, Z.mod_mul by lia. reflexivity.
  - replace (e - -52 - (e - 1)) with 53 by lia. cbv iota.
    rewrite div_eucl_div_mod.
    replace (Z.pos m ≪ 53) with (Z.pos m~0 * 4503599627370496)
      by (rewrite Z.shiftl_mul_pow2 by lia;
          change (2 ^ 53) with (2 * 4503599627370496); lia).
    rewrite Z.div_mul, Z.mod_mul by lia. reflexivity.
Qed.

Lemma shr_fexp_canonical m e :
  canonical_mantissa F64.prec F64.emax m e = true ->
  shr_fexp F64.prec F64.emax (Z.pos m) e loc_Exact
  = (Build_shr_record (Z.pos m) false false, e).
Proof.
  unfold canonical_mantissa, shr_fexp. intros H%Z.eqb_eq.
  cbn [Zdigits2]. rewrite H, Z.sub_diag. reflexivity.
Qed.

Lemma binary_round_aux_canonical s m e :
  SpecFloat.bounded F64.prec F64.emax m e = true ->
  binary_round_aux F64.prec F64.emax s (Z.pos m) e loc_Exact = S754_finite s m e.
Proof.
  intros [Hc He]%andb_prop. unfold binary_round_aux.
  rewrite shr_fexp_canonical by done. cbn.
  rewrite shr_fexp_canonical by done. cbn.
  fold F64.prec F64.emax. by rewrite He.
Qed.

Lemma binary_round_aux_double s m e :
  SpecFloat.bounded F64.prec F64.emax m e = true -> -1074 < e ->
  binary_round_aux F64.prec F64.emax s (Z.pos m~0) (e - 1) loc_Exact
  = S754_finite s m e.
Proof.
  intros Hb Hlt. destruct (bounded_cases _ _ Hb) as [He [[-> Hd]|[_ Hd]]]; [lia|].
  apply andb_prop in Hb as [Hc Hle].
  unfold binary_round_aux.
  assert (H1 : shr_fexp F64.prec F64.emax (Z.pos m~0) (e - 1) loc_Exact
               = (Build_shr_record (Z.pos m) false false, e)).
  { unfold shr_fexp. cbn [Zdigits2 digits2_pos].
    replace (fexp F64.prec F64.emax (Z.pos (Pos.succ (digits2_pos m)) + (e - 1))
             - (e - 1)) with 1 by (unfold fexp, emin, F64.prec, F64.emax; lia).
    cbn. f_equal. lia. }
  rewrite H1. cbn.
  rewrite shr_fexp_canonical by done. cbn.
  fold F64.prec F64.emax. by rewrite Hle.
Qed.

(** [w / 1.0] is [w], bit for bit. *)
Lemma div_one w : F64.valid w = true -> F64.div w F64.one = w.
Proof.
  unfold F64.valid, F64.div.
  destruct w as [s|s| |s m e]; intros Hb; try (by destruct s); try done.
  cbn [valid_binary] in Hb.
  unfold F64.one. cbn [SFdiv]. rewrite div_core_one by done.
  rewrite xorb_false_r.
  destruct (Z.eqb_spec e (-1074)) as [->|Hne].
  - by apply binary_round_aux_canonical.
  - apply binary_round_aux_double; [done|].
    destruct (bounded_cases _ _ Hb) as [_ [[-> _]|[? _]]]; [done|lia].
Qed.

Section XrayClaims.
Import Xray.

Lemma xray_same_frame df t1 t2 l1 l2 :
  xray_locals df t1 = Ok l1 -> xray_locals df t2 = Ok l2 ->
  src_flux l1 = src_flux l2 /\ src_snr l1 = src_snr l2 /\
  best_model_raw l1 = best_model_raw l2.
Proof.
  intros (bm1 & Hf1 & Hs1 & Hb1 & Hr1 & _)%xray_locals_Ok
         (bm2 & Hf2 & Hs2 & Hb2 & Hr2 & _)%xray_locals_Ok.
  repeat split; congruence.
Qed.

Lemma xray_mask_lt df thr l i b :
  wf_frame df -> xray_locals df thr = Ok l ->
  ul_mask l !! i = Some b \/ det_mask l !! i = Some b \/ pl_mask l !! i = Some b \/
  bb_mask l !! i = Some b \/ src_det_mask l !! i = Some b ->
  exists f, src_flux l !! i = Some f.
Proof.
  intros Hwf Hok H.
  destruct (xray_lengths _ _ _ Hwf Hok) as (Hlf & _).
  destruct (xray_mask_lengths _ _ _ Hwf Hok) as (_ & Hu & Hd & Hp & Hb & Hs).
  apply lookup_lt_is_Some_2. rewrite Hlf.
  destruct H as [H|[H|[H|[H|H]]]]; apply lookup_lt_Some in H; lia.
Qed.

(** C2: a record with src_flux == 0 is an upper limit whatever its SNR and
    whatever the threshold, and is in none of the three detection groups. *)
Theorem C2_zero_flux_is_upper_limit df thr l i f :
  wf_frame df -> xray_locals df thr = Ok l ->
  src_flux l !! i = Some f -> F64.eqb f F64.zero = true ->
  ul_mask l !! i = Some true /\ det_mask l !! i = Some false /\
  src_det_mask l !! i = Some false /\ pl_mask l !! i = Some false /\
  bb_mask l !! i = Some false.
Proof.
  intros Hwf Hok Hf Hz.
  destruct (xray_row _ _ _ _ _ Hwf Hok Hf)
    as (s & lab & _ & _ & Hul & Hdet & Hpl & Hbb & Hsrc).
  rewrite Hz in *. cbn [orb negb] in *. rewrite andb_false_r in *.
  cbn [andb] in *. done.
Qed.

Lemma C2_zero_flux_witness :
  exists l, xray_locals Samples.zero_flux (F64.of_Z 3) = Ok l /\
    src_snr l !! 0%nat = Some (F64.of_Z 1000) /\
    ul_mask l !! 0%nat = Some true /\ det_mask l !! 0%nat = Some false /\
    src_det_mask l !! 0%nat = Some false /\ pl_mask l !! 0%nat = Some false /\
    bb_mask l !! 0%nat = Some false.
Proof.
  eexists. split; [vm_compute; reflexivity|]. split; [reflexivity|].
  eapply (C2_zero_flux_is_upper_limit Samples.zero_flux (F64.of_Z 3) _ 0%nat F64.zero).
  - split; apply (bool_decide_unpack _); vm_compute; exact I.
  - vm_compute; reflexivity.
  - reflexivity.
  - reflexivity.
Defined.

Lemma xray_row_pair df t1 t2 l1 l2 i f :
  wf_frame df -> xray_locals df t1 = Ok l1 -> xray_locals df t2 = Ok l2 ->
  src_flux l1 !! i = Some f ->
  exists s lab,
    let d t := F64.geb s t && negb (F64.eqb f F64.zero || F64.ltb s t) in
    (ul_mask l1 !! i = Some (F64.eqb f F64.zero || F64.ltb s t1) /\
     det_mask l1 !! i = Some (d t1) /\
     pl_mask l1 !! i = Some (d t1 && String.eqb lab "PL") /\
     bb_mask l1 !! i = Some (d t1 && String.eqb lab "BB") /\
     src_det_mask l1 !! i = Some (d t1 && String.eqb lab EmptyString)) /\
    (ul_mask l2 !! i = Some (F64.eqb f F64.zero || F64.ltb s t2) /\
     det_mask l2 !! i = Some (d t2) /\
     pl_mask l2 !! i = Some (d t2 && String.eqb lab "PL") /\
     bb_mask l2 !! i = Some (d t2 && String.eqb lab "BB") /\
     src_det_mask l2 !! i = Some (d t2 && String.eqb lab EmptyString)).
Proof.
  intros Hwf Hok1 Hok2 Hf1.
  destruct (xray_same_frame _ _ _ _ _ Hok1 Hok2) as (Ef & Es & Eb).
  pose proof Hf1 as Hf2. rewrite Ef in Hf2.
  destruct (xray_row _ _ _ _ _ Hwf Hok1 Hf1) as (s & lab & Hs1 & Hb1 & R1).
  destruct (xray_row _ _ _ _ _ Hwf Hok2 Hf2) as (s' & lab' & Hs2 & Hb2 & R2).
  rewrite <- Es, Hs1 in Hs2. injection Hs2 as <-.
  rewrite <- Eb, Hb1 in Hb2. injection Hb2 as <-.
  exists s, lab. cbv zeta. split; assumption.
Qed.

Lemma detection_mono f s t1 t2 :
  F64.leb t1 t2 = true ->
  F64.geb s t2 && negb (F64.eqb f F64.zero || F64.ltb s t2) = true ->
  F64.geb s t1 && negb (F64.eqb f F64.zero || F64.ltb s t1) = true.
Proof.
  intros Hle [Hge Hnu]%andb_prop.
  apply negb_true_iff, orb_false_elim in Hnu as [Hz _].
  assert (Hge1 : F64.geb s t1 = true) by (eapply leb_trans; eassumption).
  rewrite Hge1, Hz, (geb_ltb_false _ _ Hge1). reflexivity.
Qed.

Lemma upper_limit_mono f s t1 t2 :
  F64.leb t1 t2 = true ->
  F64.eqb f F64.zero || F64.ltb s t1 = true ->
  F64.eqb f F64.zero || F64.ltb s t2 = true.
Proof.
  intros Hle [Hz|Hlt]%orb_prop; [by rewrite Hz|].
  rewrite (ltb_leb_trans _ _ _ Hlt Hle). apply orb_true_r.
Qed.

(** C3: with t1 <= t2, a record that is a detection at t2 is a detection at
    t1 (and stays in its detection group), and a record that is an upper
    limit at t1 is an upper limit at t2. *)
Theorem C3_threshold_monotone df t1 t2 l1 l2 i :
  wf_frame df -> F64.leb t1 t2 = true ->
  xray_locals df t1 = Ok l1 -> xray_locals df t2 = Ok l2 ->
  (det_mask l2 !! i = Some true -> det_mask l1 !! i = Some true) /\
  (ul_mask l1 !! i = Some true -> ul_mask l2 !! i = Some true) /\
  (src_det_mask l2 !! i = Some true -> src_det_mask l1 !! i = Some true) /\
  (pl_mask l2 !! i = Some true -> pl_mask l1 !! i = Some true) /\
  (bb_mask l2 !! i = Some true -> bb_mask l1 !! i = Some true).
Proof.
  intros Hwf Hle Hok1 Hok2.
  destruct (xray_same_frame _ _ _ _ _ Hok1 Hok2) as (Ef & _ & _).
  assert (Hrow : (exists b, ul_mask l1 !! i = Some b \/ det_mask l2 !! i = Some b \/
      pl_mask l2 !! i = Some b \/ bb_mask l2 !! i = Some b \/
      src_det_mask l2 !! i = Some b) -> exists f, src_flux l1 !! i = Some f).
  { intros [b [H|H]].
    - apply (xray_mask_lt df t1 l1 i b Hwf Hok1). by left.
    - rewrite Ef. apply (xray_mask_lt df t2 l2 i b Hwf Hok2). by right. }
  repeat split; intros H.
  all: destruct Hrow as [f Hf]; [exists true; tauto|].
  all: destruct (xray_row_pair _ _ _ _ _ _ _ Hwf Hok1 Hok2 Hf)
         as (s & lab & (U1 & D1 & P1 & B1 & S1) & (U2 & D2 & P2 & B2 & S2)).
  - rewrite D2 in H. injection H as H. rewrite D1. f_equal.
    by eapply detection_mono.
  - rewrite U1 in H. injection H as H. rewrite U2. f_equal.
    by eapply upper_limit_mono.
  - rewrite S2 in H. injection H as [H Hc]%andb_prop. rewrite S1, Hc. f_equal.
    rewrite andb_true_r. by eapply detection_mono.
  - rewrite P2 in H. injection H as [H Hc]%andb_prop. rewrite P1, Hc. f_equal.
    rewrite andb_true_r. by eapply detection_mono.
  - rewrite B2 in H. injection H as [H Hc]%andb_prop. rewrite B1, Hc. f_equal.
    rewrite andb_true_r. by eapply detection_mono.
Qed.

Lemma wf_four_rows : wf_frame Samples.four_rows.
Proof. split; apply (bool_decide_unpack _); vm_compute; exact I. Qed.

Lemma C3_threshold_witness :
  exists l1 l2,
    xray_locals Samples.four_rows (F64.of_Z 3) = Ok l1 /\
    xray_locals Samples.four_rows (F64.of_Z 6) = Ok l2 /\
    F64.leb (F64.of_Z 3) (F64.of_Z 6) = true /\
    (det_mask l2 !! 2%nat = Some true -> det_mask l1 !! 2%nat = Some true) /\
    (ul_mask l1 !! 2%nat = Some true -> ul_mask l2 !! 2%nat = Some true) /\
    (src_det_mask l2 !! 2%nat = Some true -> src_det_mask l1 !! 2%nat = Some true) /\
    (pl_mask l2 !! 2%nat = Some true -> pl_mask l1 !! 2%nat = Some true) /\
    (bb_mask l2 !! 2%nat = Some true -> bb_mask l1 !! 2%nat = Some true).
Proof.
  eexists _, _. split; [vm_compute; reflexivity|].
  split; [vm_compute; reflexivity|]. split; [reflexivity|].
  apply (C3_threshold_monotone Samples.four_rows (F64.of_Z 3) (F64.of_Z 6)).
  - exact wf_four_rows.
  - reflexivity.
  - vm_compute; reflexivity.
  - vm_compute; reflexivity.
Defined.

(** C4: the detection mask of a row is [(snr >= t) and not ((flux == 0) or
    (snr < t))], and that is the same truth value as
    [(snr >= t) and (flux != 0)]. *)
Theorem C4_detection_predicate df thr l i f s :
  wf_frame df -> xray_locals df thr = Ok l ->
  src_flux l !! i = Some f -> src_snr l !! i = Some s ->
  det_mask l !! i =
    Some (F64.geb s thr && negb (F64.eqb f F64.zero || F64.ltb s thr)) /\
  F64.geb s thr && negb (F64.eqb f F64.zero || F64.ltb s thr) =
    F64.geb s thr && negb (F64.eqb f F64.zero).
Proof.
  intros Hwf Hok Hf Hs.
  destruct (xray_row _ _ _ _ _ Hwf Hok Hf) as (s' & lab & Hs' & _ & _ & Hdet & _).
  rewrite Hs in Hs'. injection Hs' as <-. split; [exact Hdet|].
  destruct (F64.geb s thr) eqn:Hge; [|reflexivity].
  by rewrite (geb_ltb_false _ _ Hge), orb_false_r.
Qed.

Lemma C4_detection_witness :
  exists l,
    xray_locals Samples.four_rows (F64.of_Z 3) = Ok l /\
    det_mask l !! 1%nat =
      Some (F64.geb (F64.of_Z 4) (F64.of_Z 3)
            && negb (F64.eqb F64.one F64.zero || F64.ltb (F64.of_Z 4) (F64.of_Z 3))) /\
    F64.geb (F64.of_Z 4) (F64.of_Z 3)
      && negb (F64.eqb F64.one F64.zero || F64.ltb (F64.of_Z 4) (F64.of_Z 3)) =
    F64.geb (F64.of_Z 4) (F64.of_Z 3) && negb (F64.eqb F64.one F64.zero).
Proof.
  eexists. split; [vm_compute; reflexivity|].
  apply (C4_detection_predicate Samples.four_rows (F64.of_Z 3) _ 1%nat).
  - exact wf_four_rows.
  - vm_compute; reflexivity.
  - reflexivity.
  - reflexivity.
Defined.

(** C10: whatever the labels, the cells and the threshold, no row is in two
    of the four groups (raw detections, power-law detections, blackbody
    detections, upper limits). *)
Theorem C10_groups_disjoint df thr l i :
  wf_frame df -> xray_locals df thr = Ok l ->
  ~ (src_det_mask l !! i = Some true /\ pl_mask l !! i = Some true) /\
  ~ (src_det_mask l !! i = Some true /\ bb_mask l !! i = Some true) /\
  ~ (src_det_mask l !! i = Some true /\ ul_mask l !! i = Some true) /\
  ~ (pl_mask l !! i = Some true /\ bb_mask l !! i = Some true) /\
  ~ (pl_mask l !! i = Some true /\ ul_mask l !! i = Some true) /\
  ~ (bb_mask l !! i = Some true /\ ul_mask l !! i = Some true).
Proof.
  intros Hwf Hok.
  destruct (src_flux l !! i) as [f|] eqn:Hf.
  - destruct (xray_row _ _ _ _ _ Hwf Hok Hf)
      as (s & lab & _ & _ & Hul & _ & Hpl & Hbb & Hsrc).
    rewrite Hul, Hpl, Hbb, Hsrc.
    destruct (F64.eqb f F64.zero || F64.ltb s thr), (F64.geb s thr);
      cbn [andb negb];
      destruct (String.eqb_spec lab "PL"), (String.eqb_spec lab "BB"),
        (String.eqb_spec lab EmptyString); cbn [andb];
      repeat split; intros [? ?]; congruence.
  - assert (Hnone : forall b, ~ (ul_mask l !! i = Some b \/ det_mask l !! i = Some b \/
        pl_mask l !! i = Some b \/ bb_mask l !! i = Some b \/
        src_det_mask l !! i = Some b)).
    { intros b H. destruct (xray_mask_lt _ _ _ _ _ Hwf Hok H) as [f Hf']. congruence. }
    repeat split; intros [H1 H2]; apply (Hnone true); tauto.
Qed.

Lemma C10_disjoint_witness :
  exists l,
    xray_locals Samples.four_rows (F64.of_Z 3) = Ok l /\
    ~ (src_det_mask l !! 1%nat = Some true /\ pl_mask l !! 1%nat = Some true) /\
    ~ (src_det_mask l !! 1%nat = Some true /\ bb_mask l !! 1%nat = Some true) /\
    ~ (src_det_mask l !! 1%nat = Some true /\ ul_mask l !! 1%nat = Some true) /\
    ~ (pl_mask l !! 1%nat = Some true /\ bb_mask l !! 1%nat = Some true) /\
    ~ (pl_mask l !! 1%nat = Some true /\ ul_mask l !! 1%nat = Some true) /\
    ~ (bb_mask l !! 1%nat = Some true /\ ul_mask l !! 1%nat = Some true).
Proof.
  eexists. split; [vm_compute; reflexivity|].
  apply (C10_groups_disjoint Samples.four_rows (F64.of_Z 3)).
  - exact wf_four_rows.
  - vm_compute; reflexivity.
Defined.

(** C1, as the claim states it, fails: a detection whose best model is
    neither PL nor BB (here "apec"), and a row whose SNR cell is empty (NaN)
    with a flux that is not 0, are in none of the four groups, and nothing is
    plotted for them. *)
Lemma C1_partition_counterexample :
  exists l1 l2,
    wf_frame Samples.other_label /\ wf_frame Samples.nan_snr /\
    F64.leb F64.zero (F64.of_Z 3) = true /\
    xray_locals Samples.other_label (F64.of_Z 3) = Ok l1 /\
    best_model_raw l1 !! 0%nat = Some "APEC" /\
    det_mask l1 !! 0%nat = Some true /\
    src_det_mask l1 !! 0%nat = Some false /\ pl_mask l1 !! 0%nat = Some false /\
    bb_mask l1 !! 0%nat = Some false /\ ul_mask l1 !! 0%nat = Some false /\
    data (xray_fig (Some (Ok Samples.other_label)) (F64.of_Z 3)) = [] /\
    xray_locals Samples.nan_snr (F64.of_Z 3) = Ok l2 /\
    best_model_raw l2 !! 0%nat = Some EmptyString /\
    src_det_mask l2 !! 0%nat = Some false /\ pl_mask l2 !! 0%nat = Some false /\
    bb_mask l2 !! 0%nat = Some false /\ ul_mask l2 !! 0%nat = Some false /\
    data (xray_fig (Some (Ok Samples.nan_snr)) (F64.of_Z 3)) = [].
Proof.
  eexists _, _.
  split; [split; apply (bool_decide_unpack _); vm_compute; exact I|].
  split; [split; apply (bool_decide_unpack _); vm_compute; exact I|].
  split; [reflexivity|].
  split; [vm_compute; reflexivity|].
  do 7 (split; [vm_compute; reflexivity|]).
  split; [vm_compute; reflexivity|].
  repeat split; vm_compute; reflexivity.
Qed.

Lemma xray_row_partition df thr l i f s lab :
  wf_frame df -> F64.leb F64.zero thr = true -> xray_locals df thr = Ok l ->
  src_flux l !! i = Some f -> src_snr l !! i = Some s ->
  best_model_raw l !! i = Some lab ->
  F64.is_nan s = false -> lab = "PL" \/ lab = "BB" \/ lab = EmptyString ->
  (src_det_mask l !! i, pl_mask l !! i, bb_mask l !! i, ul_mask l !! i) =
    if F64.eqb f F64.zero || F64.ltb s thr
    then (Some false, Some false, Some false, Some true)
    else if String.eqb lab "PL" then (Some false, Some true, Some false, Some false)
    else if String.eqb lab "BB" then (Some false, Some false, Some true, Some false)
    else (Some true, Some false, Some false, Some false).
Proof.
  intros Hwf Hthr Hok Hf Hs Hlab Hnan Hknown.
  destruct (xray_row _ _ _ _ _ Hwf Hok Hf)
    as (s' & lab' & Hs' & Hlab' & Hul & _ & Hpl & Hbb & Hsrc).
  rewrite Hs in Hs'. injection Hs' as <-.
  rewrite Hlab in Hlab'. injection Hlab' as <-.
  rewrite Hul, Hpl, Hbb, Hsrc.
  destruct (F64.eqb f F64.zero || F64.ltb s thr) eqn:Hu.
  - cbn [negb]. by rewrite andb_false_r.
  - apply orb_false_elim in Hu as [_ Hlt].
    rewrite (ltb_false_geb s thr Hnan (leb_not_nan _ _ Hthr) Hlt).
    destruct Hknown as [-> | [-> | ->]]; reflexivity.
Qed.

(** C1, amended: a row is in at most one of the four groups, as follows.
    When its flux is 0 or its SNR is below the threshold it is an upper limit
    (and in no other group), whatever its label and whatever its SNR.
    Otherwise, when its SNR is NaN it is in no group; and when its SNR is a
    number (it is at or above the threshold then) it is in the power-law
    group for the label "PL", in the blackbody group for "BB", in the raw
    detections for the empty label, and in no group for any other label. *)
Theorem C1_partition_by_row df thr l i f s lab :
  wf_frame df -> F64.leb F64.zero thr = true -> xray_locals df thr = Ok l ->
  src_flux l !! i = Some f -> src_snr l !! i = Some s ->
  best_model_raw l !! i = Some lab ->
  (src_det_mask l !! i, pl_mask l !! i, bb_mask l !! i, ul_mask l !! i) =
    if F64.eqb f F64.zero || F64.ltb s thr
    then (Some false, Some false, Some false, Some true)
    else if F64.is_nan s then (Some false, Some false, Some false, Some false)
    else if String.eqb lab "PL" then (Some false, Some true, Some false, Some false)
    else if String.eqb lab "BB" then (Some false, Some false, Some true, Some false)
    else if String.eqb lab EmptyString
    then (Some true, Some false, Some false, Some false)
    else (Some false, Some false, Some false, Some false).
Proof.
  intros Hwf Hthr Hok Hf Hs Hlab.
  destruct (xray_row _ _ _ _ _ Hwf Hok Hf)
    as (s' & lab' & Hs' & Hlab' & Hul & _ & Hpl & Hbb & Hsrc).
  rewrite Hs in Hs'. injection Hs' as <-.
  rewrite Hlab in Hlab'. injection Hlab' as <-.
  rewrite Hul, Hpl, Hbb, Hsrc.
  destruct (F64.eqb f F64.zero || F64.ltb s thr) eqn:Hu.
  - cbn [negb]. by rewrite andb_false_r.
  - apply orb_false_elim in Hu as [_ Hlt]. cbn [negb]. rewrite andb_true_r.
    destruct (F64.is_nan s) eqn:Hnan.
    + by rewrite (geb_nan s thr Hnan).
    + rewrite (ltb_false_geb s thr Hnan (leb_not_nan _ _ Hthr) Hlt). cbn [andb].
      destruct (String.eqb_spec lab "PL") as [->|_]; [reflexivity|].
      destruct (String.eqb_spec lab "BB") as [->|_]; [reflexivity|].
      by destruct (String.eqb lab EmptyString).
Qed.

(** X4: when every SNR is a number and every label is "PL", "BB" or empty,
    the four groups that are plotted hold every row of the file once: their
    sizes add up to the number of rows. *)
Lemma groups_cover_every_row df thr l :
  wf_frame df -> F64.leb F64.zero thr = true -> xray_locals df thr = Ok l ->
  Forall (fun s => F64.is_nan s = false) (src_snr l) ->
  Forall (fun lab => lab = "PL" \/ lab = "BB" \/ lab = EmptyString)
         (best_model_raw l) ->
  (length (x (group_src l)) + length (x (group_pl l)) + length (x (group_bb l))
   + length (x (group_ul l)) = index df)%nat.
Proof.
  intros Hwf Hthr Hok Hnan Hknown.
  destruct (xray_mask_lengths _ _ _ Hwf Hok) as (Hm & Hu & Hd & Hp & Hb & Hs).
  cbn [group_src group_pl group_bb group_ul x].
  rewrite <- Hm. apply select_partition; try congruence.
  intros i b1 b2 b3 b4 H1 H2 H3 H4.
  destruct (xray_mask_lt df thr l i b4 Hwf Hok) as [f Hf]; [by left|].
  destruct (xray_row _ _ _ _ _ Hwf Hok Hf) as (s & lab & Hsnr & Hlab & _).
  pose proof (xray_row_partition df thr l i f s lab Hwf Hthr Hok Hf Hsnr Hlab
    (proj1 (Forall_lookup _ _) Hnan i s Hsnr)
    (proj1 (Forall_lookup _ _) Hknown i lab Hlab)) as Hrow.
  rewrite H1, H2, H3, H4 in Hrow.
  destruct (F64.eqb f F64.zero || F64.ltb s thr);
    [|destruct (String.eqb lab "PL"); [|destruct (String.eqb lab "BB")]];
    injection Hrow as -> -> -> ->; reflexivity.
Qed.

Lemma C1_partition_witness :
  exists l,
    xray_locals Samples.other_label (F64.of_Z 6) = Ok l /\
    best_model_raw l !! 0%nat = Some "APEC" /\
    (src_det_mask l !! 0%nat, pl_mask l !! 0%nat, bb_mask l !! 0%nat,
     ul_mask l !! 0%nat) =
    (Some false, Some false, Some false, Some true).
Proof.
  eexists. split; [vm_compute; reflexivity|]. split; [reflexivity|].
  apply (C1_partition_by_row Samples.other_label (F64.of_Z 6) _ 0%nat
           F64.one (F64.of_Z 5) "APEC").
  - split; apply (bool_decide_unpack _); vm_compute; exact I.
  - reflexivity.
  - vm_compute; reflexivity.
  - reflexivity.
  - reflexivity.
  - reflexivity.
Defined.
End XrayClaims.

(** ** Columns that the file does not have *)

Section MissingColumns.
Import Xray.

Ltac drop_mjd_goal :=
  repeat match goal with
  | |- context [<["MJD" := ?v]> ?m !! ?k] =>
      lazymatch k with
      | "MJD" => fail
      | _ => rewrite (lookup_insert_ne m "MJD" k v) by done
      end
  end.

(** The block reads the frame through these lookups only. *)
Lemma xray_locals_agree df df' thr :
  index df = index df' ->
  texts df !! "best_model" = texts df' !! "best_model" ->
  (forall col, col ∈ required_columns -> floats df !! col = floats df' !! col) ->
  (forall col, col ∈ optional_columns ->
     default (zeros df) (floats df !! col) = default (zeros df') (floats df' !! col)) ->
  xray_locals df thr = xray_locals df' thr.
Proof.
  intros Hidx Htxt Hreq Hopt.
  unfold xray_locals, getitem, getitem_text, setitem. cbn [floats texts index].
  rewrite (Hreq "mjd_start") by set_solver.
  destruct (floats df' !! "mjd_start") as [start|]; [|reflexivity].
  rewrite (Hreq "mjd_stop") by set_solver.
  destruct (floats df' !! "mjd_stop") as [stop|]; [|reflexivity].
  cbn [mbind result_bind]. drop_mjd_goal. rewrite !lookup_insert_eq.
  rewrite (Hreq "src_flux") by set_solver.
  destruct (floats df' !! "src_flux") as [flux|]; [|reflexivity].
  rewrite (Hreq "src_flux_errinf") by set_solver.
  destruct (floats df' !! "src_flux_errinf") as [lo|]; [|reflexivity].
  rewrite (Hreq "src_flux_errsup") by set_solver.
  destruct (floats df' !! "src_flux_errsup") as [hi|]; [|reflexivity].
  rewrite Htxt.
  destruct (texts df' !! "best_model") as [bm|]; [|reflexivity].
  cbn [mbind result_bind mret result_ret].
  unfold zeros in *. cbn [index].
  rewrite (Hopt "src_flux_SNR"), (Hopt "src_flux_UL"), (Hopt "flux_fit_pl"),
    (Hopt "flux_fit_pl_errinf"), (Hopt "flux_fit_pl_errsup"), (Hopt "flux_fit_bb"),
    (Hopt "flux_fit_bb_errinf"), (Hopt "flux_fit_bb_errsup") by set_solver.
  reflexivity.
Qed.

Lemma optional_not_required col :
  col ∈ optional_columns -> (col ∉ required_columns) /\ col <> "MJD".
Proof.
  unfold optional_columns. rewrite !elem_of_cons, elem_of_nil.
  intros H. repeat (destruct H as [->|H];
    [split; [apply (bool_decide_unpack _); vm_compute; exact I|discriminate]|]).
  done.
Qed.

Lemma has_required_ok df thr :
  has_required df -> is_ok (xray_locals df thr) = true.
Proof.
  intros [Hreq [bm Hbm]]. unfold required_columns in Hreq.
  repeat (apply Forall_cons in Hreq as [[? ?] Hreq]).
  unfold xray_locals, getitem, getitem_text, setitem. cbn [floats texts index].
  repeat match goal with H : floats df !! _ = Some _ |- _ => rewrite H; clear H end.
  cbn [mbind result_bind]. drop_mjd_goal. rewrite !lookup_insert_eq.
  repeat match goal with H : floats df !! _ = Some _ |- _ => rewrite H; clear H end.
  rewrite Hbm. reflexivity.
Qed.

Lemma typed_no_snr_column : typed_xray Samples.no_snr_column.
Proof. split; [|reflexivity]. apply (bool_decide_unpack _). vm_compute. exact I. Qed.

(** C8: when the file (with the types of [typed_xray]) has no SNR column, no
    upper-limit column or no column of a fitted flux or of its errors, the
    block computes what it computes for the same file with that column
    holding one [0.0] per row, the figure is the same, the local variable of
    that column is one [0.0] per row, and the block raises nothing as long as
    the columns it needs are there. *)
Theorem C8_missing_column_as_zeros df thr col :
  typed_xray df -> col ∈ optional_columns -> has_column df col = false ->
  xray_locals df thr =
    xray_locals (setitem df col (replicate (index df) (S754_zero false))) thr /\
  xray_fig (Some (Ok df)) thr =
    xray_fig (Some (Ok (setitem df col (replicate (index df) (S754_zero false))))) thr /\
  (forall l, xray_locals df thr = Ok l ->
     optional_value l col = Some (replicate (index df) (S754_zero false))) /\
  (has_required df -> is_ok (xray_locals df thr) = true).
Proof.
  intros _ Hcol Habsent.
  assert (Hnone : floats df !! col = None).
  { unfold has_column in Habsent. by destruct (floats df !! col). }
  assert (Heq : xray_locals df thr =
    xray_locals (setitem df col (replicate (index df) (S754_zero false))) thr).
  { destruct (optional_not_required _ Hcol) as [Hnr _].
    apply xray_locals_agree; cbn [setitem index floats texts]; try reflexivity.
    - intros k Hk. rewrite lookup_insert_ne; [done|]. by intros ->.
    - intros k Hk. unfold zeros. cbn [index].
      destruct (decide (col = k)) as [->|Hne].
      + by rewrite lookup_insert_eq, Hnone.
      + by rewrite lookup_insert_ne. }
  split; [exact Heq|]. split; [|split].
  - unfold xray_fig. cbn [mbind result_bind]. by rewrite Heq.
  - intros l Hok.
    pose proof Hok as (_ & _ & Hsnr & _)%xray_locals_Ok.
    pose proof Hok as (_ & _ & _ & _ & _ & _ & _ & _ & _ & Hul & Hpl & Hpl_lo & Hpl_hi
                       & Hbb & Hbb_lo & Hbb_hi)%xray_locals_inv.
    unfold optional_columns in Hcol. rewrite !elem_of_cons, elem_of_nil in Hcol.
    destruct Hcol as [-> | [-> | [-> | [-> | [-> | [-> | [-> | [-> | []]]]]]]]];
      cbn [optional_value String.eqb Ascii.eqb Bool.eqb andb];
      first [rewrite Hsnr | rewrite Hul | rewrite Hpl | rewrite Hpl_lo | rewrite Hpl_hi
            | rewrite Hbb | rewrite Hbb_lo | rewrite Hbb_hi];
      by rewrite Hnone.
  - apply has_required_ok.
Qed.

Lemma C8_missing_column_witness :
  xray_locals Samples.no_snr_column (F64.of_Z 3) =
    xray_locals (setitem Samples.no_snr_column "src_flux_SNR"
                   (replicate 4 (S754_zero false))) (F64.of_Z 3) /\
  xray_fig (Some (Ok Samples.no_snr_column)) (F64.of_Z 3) =
    xray_fig (Some (Ok (setitem Samples.no_snr_column "src_flux_SNR"
                          (replicate 4 (S754_zero false))))) (F64.of_Z 3) /\
  (forall l, xray_locals Samples.no_snr_column (F64.of_Z 3) = Ok l ->
     src_snr l = replicate 4 (S754_zero false)) /\
  is_ok (xray_locals Samples.no_snr_column (F64.of_Z 3)) = true.
Proof.
  assert (Hcol : "src_flux_SNR" ∈ optional_columns) by (by left).
  assert (Hnone : has_column Samples.no_snr_column "src_flux_SNR" = false)
    by (vm_compute; reflexivity).
  destruct (C8_missing_column_as_zeros Samples.no_snr_column (F64.of_Z 3)
              "src_flux_SNR" typed_no_snr_column Hcol Hnone) as (H1 & H2 & H3 & H4).
  split; [exact H1|]. split; [exact H2|]. split.
  - intros l Hl. specialize (H3 l Hl). by injection H3.
  - apply H4. split; [|eexists; vm_compute; reflexivity].
    unfold required_columns.
    repeat (apply List.Forall_cons; [eexists; vm_compute; reflexivity|]).
    apply List.Forall_nil.
Defined.
End MissingColumns.

(** ** Vega to AB *)

Section UvotClaims.
Import Uvot.

Lemma offset_Some filt zp ab vega :
  zeropoints_new !! filt = Some zp -> zp !! "ab" = Some ab ->
  zp !! "vega" = Some vega -> offset filt = Ok (F64.sub ab vega).
Proof.
  intros Hzp Hab Hvega. unfold offset, getitem. rewrite Hzp.
  cbn [mbind result_bind]. rewrite Hab. cbn [mbind result_bind].
  rewrite Hvega. reflexivity.
Qed.

Lemma offset_None filt :
  zeropoints_new !! filt = None -> offset filt = Raise (KeyError filt).
Proof. intros Hzp. unfold offset, getitem. by rewrite Hzp. Qed.

Lemma zeropoints_new_entries filt :
  filt ∈ uvot_filters ->
  exists zp ab vega,
    zeropoints_new !! filt = Some zp /\ zp !! "ab" = Some ab /\ zp !! "vega" = Some vega.
Proof.
  unfold uvot_filters. rewrite !elem_of_cons, elem_of_nil. intros Hin.
  repeat (destruct Hin as [->|Hin];
    [eexists _, _, _; repeat split; vm_compute; reflexivity|]).
  done.
Qed.

(** The keys of [zeropoints_new] are the six codes of [uvot_filters]. *)
Lemma zeropoints_new_keys filt :
  zeropoints_new !! filt = None <-> filt ∉ uvot_filters.
Proof.
  split; unfold uvot_filters.
  - intros Hnone (zp & _ & _ & Hzp & _)%zeropoints_new_entries. congruence.
  - rewrite !not_elem_of_cons. intros (? & ? & ? & ? & ? & ? & _).
    unfold zeropoints_new. rewrite !lookup_insert_ne by done. apply lookup_empty.
Qed.

(** C5: on each of the six filter codes, [swift_vega_to_ab] gives
    [m_vega + (ab - vega)] with the two zero points of that filter in
    [zeropoints_new]; it raises [KeyError] exactly on the other codes. *)
Theorem C5_swift_vega_to_ab :
  (forall filt, filt ∈ uvot_filters ->
     exists zp ab vega,
       zeropoints_new !! filt = Some zp /\ zp !! "ab" = Some ab /\
       zp !! "vega" = Some vega /\
       (forall m_vega, swift_vega_to_ab m_vega filt
                       = Ok (F64.add m_vega (F64.sub ab vega))) /\
       (forall m_vega, swift_vega_to_ab_series m_vega filt
                       = Ok ((fun m => F64.add m (F64.sub ab vega)) <$> m_vega))) /\
  (forall m_vega filt,
     swift_vega_to_ab m_vega filt = Raise (KeyError filt) <-> filt ∉ uvot_filters) /\
  (forall m_vega filt,
     is_ok (swift_vega_to_ab m_vega filt) = false <-> filt ∉ uvot_filters) /\
  (forall m_vega filt,
     is_ok (swift_vega_to_ab_series m_vega filt) = false <-> filt ∉ uvot_filters).
Proof.
  assert (Hok : forall filt, filt ∈ uvot_filters ->
            exists off, offset filt = Ok off).
  { intros filt (zp & ab & vega & Hzp & Hab & Hvega)%zeropoints_new_entries.
    eexists. by eapply offset_Some. }
  assert (Herr : forall filt, filt ∉ uvot_filters -> offset filt = Raise (KeyError filt)).
  { intros filt Hnot. by apply offset_None, zeropoints_new_keys. }
  split; [|split; [|split]].
  - intros filt (zp & ab & vega & Hzp & Hab & Hvega)%zeropoints_new_entries.
    exists zp, ab, vega. repeat split; try done.
    + intros m. unfold swift_vega_to_ab.
      by rewrite (offset_Some _ _ _ _ Hzp Hab Hvega).
    + intros m. unfold swift_vega_to_ab_series.
      by rewrite (offset_Some _ _ _ _ Hzp Hab Hvega).
  - intros m filt. unfold swift_vega_to_ab.
    destruct (decide (filt ∈ uvot_filters)) as [Hin|Hnot].
    + destruct (Hok _ Hin) as [off ->]. split; [discriminate|done].
    + rewrite (Herr _ Hnot). done.
  - intros m filt. unfold swift_vega_to_ab.
    destruct (decide (filt ∈ uvot_filters)) as [Hin|Hnot].
    + destruct (Hok _ Hin) as [off ->]. split; [discriminate|done].
    + rewrite (Herr _ Hnot). done.
  - intros m filt. unfold swift_vega_to_ab_series.
    destruct (decide (filt ∈ uvot_filters)) as [Hin|Hnot].
    + destruct (Hok _ Hin) as [off ->]. split; [discriminate|done].
    + rewrite (Herr _ Hnot). done.
Qed.

Lemma C5_swift_vega_to_ab_witness :
  swift_vega_to_ab (F64.of_Z 15) "white" = Raise (KeyError "white") /\
  exists zp ab vega,
    zeropoints_new !! "vv" = Some zp /\ zp !! "ab" = Some ab /\
    zp !! "vega" = Some vega /\
    (forall m_vega, swift_vega_to_ab m_vega "vv"
                    = Ok (F64.add m_vega (F64.sub ab vega))) /\
    (forall m_vega, swift_vega_to_ab_series m_vega "vv"
                    = Ok ((fun m => F64.add m (F64.sub ab vega)) <$> m_vega)).
Proof.
  destruct C5_swift_vega_to_ab as (Hknown & Hunknown & _). split.
  - apply Hunknown. apply (bool_decide_unpack _). vm_compute. exact I.
  - apply Hknown. apply (bool_decide_unpack _). vm_compute. exact I.
Defined.

Example swift_vega_to_ab_vv :
  swift_vega_to_ab (F64.of_Z 15) "vv"
  = Ok (F64.add (F64.of_Z 15) (F64.sub (F64.lit 1788 100) (F64.lit 1789 100))).
Proof. vm_compute; reflexivity. Qed.

Example swift_vega_to_ab_unknown :
  swift_vega_to_ab (F64.of_Z 15) "white" = Raise (KeyError "white").
Proof. vm_compute; reflexivity. Qed.
End UvotClaims.

(** ** Rest-frame wavelengths *)

Section SpectrumClaims.
Import Spectrum.

Lemma wavelength_rest_zero ws :
  Forall (fun w => F64.valid w = true) ws -> wavelength_rest ws F64.zero = ws.
Proof.
  unfold wavelength_rest. change (F64.add F64.one F64.zero) with F64.one.
  induction 1 as [|w ws Hw _ IH]; [reflexivity|].
  cbn [fmap list_fmap]. rewrite div_one by done. f_equal. exact IH.
Qed.

(** C7: every wavelength [w] becomes [w / (1 + z)]; at [z = 0] the
    wavelengths are unchanged; 6562.8 at [z = 1] becomes 3281.4; and the
    trace of a file carries the intensities of its second column unchanged. *)
Theorem C7_rest_wavelength :
  (forall ws z i w, ws !! i = Some w ->
     wavelength_rest ws z !! i = Some (F64.div w (F64.add F64.one z))) /\
  (forall ws, Forall (fun w => F64.valid w = true) ws ->
     wavelength_rest ws F64.zero = ws) /\
  wavelength_rest [F64.lit 65628 10] (F64.of_Z 1) = [F64.lit 32814 10] /\
  (forall z fig file wavelength_obs intensity others,
     skipped (wavelength_obs :: intensity :: others) = false ->
     spectrum_step z fig (file, Ok (wavelength_obs :: intensity :: others)) =
       add_trace (Scatter file (wavelength_rest wavelength_obs z) intensity None) fig).
Proof.
  split; [|split; [|split]].
  - intros ws z i w Hw. unfold wavelength_rest.
    by rewrite list_lookup_fmap, Hw.
  - exact wavelength_rest_zero.
  - vm_compute; reflexivity.
  - intros z fig file wl inten others Hskip. unfold spectrum_step.
    by rewrite Hskip.
Qed.

Lemma C7_rest_wavelength_witness :
  wavelength_rest [F64.lit 65628 10; F64.lit 48613 10] F64.zero
  = [F64.lit 65628 10; F64.lit 48613 10] /\
  wavelength_rest [F64.lit 65628 10] (F64.of_Z 1) !! 0%nat
  = Some (F64.div (F64.lit 65628 10) (F64.add F64.one (F64.of_Z 1))).
Proof.
  destruct C7_rest_wavelength as (Hdiv & Hzero & _ & _). split.
  - apply Hzero. repeat constructor.
  - apply Hdiv. reflexivity.
Defined.

(** C9: when the redshift cell is missing (NaN or None) or is a text that
    [float] does not read, [z] is 0.0, nothing is raised, and the wavelengths
    plotted are the observed ones. *)
Theorem C9_redshift_fallback (float_of_str : string -> option float) (c : cell) :
  notna c = false \/ (exists s, c = Text s /\ float_of_str s = None) ->
  redshift float_of_str c = F64.zero /\
  forall ws, Forall (fun w => F64.valid w = true) ws ->
    wavelength_rest ws (redshift float_of_str c) = ws.
Proof.
  intros Hc.
  assert (Hz : redshift float_of_str c = F64.zero).
  { unfold redshift. destruct Hc as [-> | (s & -> & Hs)]; [reflexivity|].
    cbn. by rewrite Hs. }
  split; [exact Hz|]. rewrite Hz. exact wavelength_rest_zero.
Qed.

Lemma C9_redshift_witness :
  redshift Samples.float_of_str (Text "unknown") = F64.zero /\
  redshift Samples.float_of_str (Number S754_nan) = F64.zero /\
  wavelength_rest [F64.lit 65628 10]
    (redshift Samples.float_of_str (Text "unknown")) = [F64.lit 65628 10].
Proof.
  assert (H1 : notna (Text "unknown") = false \/
               (exists s, Text "unknown" = Text s /\ Samples.float_of_str s = None))
    by (right; exists "unknown"; split; reflexivity).
  assert (H2 : notna (Number S754_nan) = false \/
               (exists s, Number S754_nan = Text s /\ Samples.float_of_str s = None))
    by (left; reflexivity).
  split; [exact (proj1 (C9_redshift_fallback _ _ H1))|].
  split; [exact (proj1 (C9_redshift_fallback _ _ H2))|].
  apply (proj2 (C9_redshift_fallback _ _ H1)). repeat constructor.
Defined.
End SpectrumClaims.

(** * Python strings: facts used below *)

Section StringFacts.
Import PyStr PyText.
Local Open Scope string_scope.

Lemma append_cons c s t : String c s ++ t = String c (s ++ t).
Proof. reflexivity. Qed.

Lemma append_nil_r s : s ++ EmptyString = s.
Proof. induction s as [|c s IH]; [done|]. by rewrite append_cons, IH. Qed.

Lemma append_assoc s1 s2 s3 : (s1 ++ s2) ++ s3 = s1 ++ (s2 ++ s3).
Proof. induction s1 as [|c s1 IH]; [done|]. by rewrite !append_cons, IH. Qed.

Lemma rev_app_spec s1 s2 : String.rev_app s1 s2 = String.rev s1 ++ s2.
Proof.
  unfold String.rev. revert s2. induction s1 as [|c s1 IH]; intros s2; [done|].
  cbn. rewrite IH, (IH (String c EmptyString)), append_assoc. done.
Qed.

Lemma rev_cons c s : String.rev (String c s) = String.rev s ++ String c EmptyString.
Proof. unfold String.rev at 1. cbn. apply rev_app_spec. Qed.

Lemma rev_snoc s c : String.rev (s ++ String c EmptyString) = String c (String.rev s).
Proof.
  induction s as [|d s IH]; [done|].
  by rewrite append_cons, rev_cons, IH, rev_cons.
Qed.

Lemma rev_involutive s : String.rev (String.rev s) = s.
Proof. induction s as [|c s IH]; [done|]. by rewrite rev_cons, rev_snoc, IH. Qed.

Lemma rev_app_distr s1 s2 :
  String.rev (s1 ++ s2) = String.rev s2 ++ String.rev s1.
Proof.
  induction s1 as [|c s1 IH].
  - by rewrite append_nil_r.
  - by rewrite append_cons, !rev_cons, IH, append_assoc.
Qed.

Lemma blank_app s1 s2 : blank (s1 ++ s2) = blank s1 && blank s2.
Proof.
  induction s1 as [|c s1 IH]; [done|].
  rewrite append_cons. cbn [blank]. by rewrite IH, andb_assoc.
Qed.

Lemma blank_rev s : blank (String.rev s) = blank s.
Proof.
  induction s as [|c s IH]; [done|].
  rewrite rev_cons, blank_app, IH. cbn. rewrite andb_true_r. apply andb_comm.
Qed.

Lemma lstrip_empty_iff s : lstrip s = EmptyString <-> blank s = true.
Proof.
  induction s as [|c s IH]; [done|]. cbn.
  destruct (isspace c); cbn; [exact IH|]. split; discriminate.
Qed.

Lemma lstrip_app s1 s2 :
  lstrip (s1 ++ s2) = if blank s1 then lstrip s2 else lstrip s1 ++ s2.
Proof.
  induction s1 as [|c s1 IH]; [done|].
  rewrite append_cons. cbn [lstrip blank].
  destruct (isspace c); cbn [andb]; [exact IH|done].
Qed.

Lemma rstrip_cons c s :
  rstrip (String c s) =
    if isspace c && blank s then EmptyString else String c (rstrip s).
Proof.
  unfold rstrip. rewrite rev_cons, lstrip_app, blank_rev.
  destruct (blank s) eqn:Hs.
  - rewrite andb_true_r.
    assert (Hl : lstrip (String.rev s) = EmptyString)
      by (apply lstrip_empty_iff; by rewrite blank_rev).
    rewrite Hl. cbn. by destruct (isspace c).
  - rewrite andb_false_r. by rewrite rev_snoc.
Qed.

Lemma rstrip_empty_iff s : rstrip s = EmptyString <-> blank s = true.
Proof.
  induction s as [|c s IH]; [done|]. rewrite rstrip_cons. cbn.
  destruct (isspace c), (blank s); cbn; split; try done.
Qed.

Lemma rstrip_app_blank s b : blank b = true -> rstrip (s ++ b) = rstrip s.
Proof.
  intros Hb. induction s as [|c s IH].
  - change (EmptyString ++ b) with b. by apply rstrip_empty_iff.
  - by rewrite append_cons, !rstrip_cons, IH, blank_app, Hb, andb_true_r.
Qed.

Lemma blank_lstrip s : blank (lstrip s) = blank s.
Proof.
  induction s as [|c s IH]; [done|]. cbn.
  destruct (isspace c) eqn:Hc; cbn; [exact IH|by rewrite Hc].
Qed.

(** [s.strip()] is empty exactly when [s] is all whitespace. *)
Lemma strip_empty_iff s : strip s = EmptyString <-> blank s = true.
Proof. unfold strip. by rewrite rstrip_empty_iff, blank_lstrip. Qed.

(** A string that starts with a character that is no whitespace keeps it. *)
Lemma strip_cons c s :
  isspace c = false -> strip (String c s) = String c (rstrip s).
Proof. intros Hc. unfold strip. cbn [lstrip]. by rewrite Hc, rstrip_cons, Hc. Qed.

(** What is left by [strip] starts with a character that is no whitespace. *)
Lemma strip_head s :
  strip s = EmptyString \/ exists c t, strip s = String c t /\ isspace c = false.
Proof.
  unfold strip. induction s as [|c s IH]; [by left|]. cbn [lstrip].
  destruct (isspace c) eqn:Hc; [exact IH|].
  right. exists c, (rstrip s). by rewrite rstrip_cons, Hc.
Qed.

Lemma strip_app_blank a s b :
  blank a = true -> blank b = true -> strip (a ++ s ++ b) = strip s.
Proof.
  intros Ha Hb. unfold strip. rewrite lstrip_app, Ha, lstrip_app.
  destruct (blank s) eqn:Hs.
  - assert (lstrip s = EmptyString) as -> by by apply lstrip_empty_iff.
    assert (lstrip b = EmptyString) as -> by by apply lstrip_empty_iff. done.
  - by apply rstrip_app_blank.
Qed.

Lemma upper_app s1 s2 : upper (s1 ++ s2) = upper s1 ++ upper s2.
Proof.
  induction s1 as [|c s1 IH]; [done|].
  rewrite append_cons. cbn [upper]. by rewrite IH, append_cons.
Qed.

Lemma isspace_upper_char c : isspace (upper_char c) = isspace c.
Proof. by destruct c as [[] [] [] [] [] [] [] []]. Qed.

Lemma upper_char_idemp c : upper_char (upper_char c) = upper_char c.
Proof. by destruct c as [[] [] [] [] [] [] [] []]. Qed.

Lemma blank_upper s : blank (upper s) = blank s.
Proof.
  induction s as [|c s IH]; [done|]. cbn. by rewrite isspace_upper_char, IH.
Qed.

Lemma upper_idemp s : upper (upper s) = upper s.
Proof.
  induction s as [|c s IH]; [done|]. cbn. by rewrite upper_char_idemp, IH.
Qed.
End StringFacts.

(** * Further properties of the X-ray panel *)

Section XrayPanel.
Import Xray.

Lemma xray_ok_iff_required df thr :
  is_ok (xray_locals df thr) = true <-> has_required df.
Proof.
  split; [|apply has_required_ok].
  destruct (xray_locals df thr) as [l|e] eqn:Hok; [intros _|discriminate].
  destruct (xray_locals_inv _ _ _ Hok)
    as (start & stop & bm & H1 & H2 & H3 & H4 & H5 & H6 & _).
  split; [|by exists bm]. unfold required_columns.
  repeat (apply List.Forall_cons; [eauto|]). apply List.Forall_nil.
Qed.

Lemma xray_locals_Raise df thr e :
  xray_locals df thr = Raise e ->
  exists col, e = KeyError col /\
    (col ∈ required_columns /\ floats df !! col = None \/
     col = "best_model" /\ texts df !! col = None).
Proof.
  unfold xray_locals, getitem, getitem_text, setitem. cbn [floats texts index].
  intros H.
  destruct (floats df !! "mjd_start") as [start|] eqn:H1;
    [|injection H as <-; eexists; split; [done|left; split; [set_solver|done]]].
  destruct (floats df !! "mjd_stop") as [stop|] eqn:H2;
    [|injection H as <-; eexists; split; [done|left; split; [set_solver|done]]].
  cbn [mbind result_bind] in H.
  drop_mjd H. rewrite lookup_insert_eq in H.
  destruct (floats df !! "src_flux") as [flux|] eqn:H3;
    [|injection H as <-; eexists; split; [done|left; split; [set_solver|done]]].
  destruct (floats df !! "src_flux_errinf") as [lo|] eqn:H4;
    [|injection H as <-; eexists; split; [done|left; split; [set_solver|done]]].
  destruct (floats df !! "src_flux_errsup") as [hi|] eqn:H5;
    [|injection H as <-; eexists; split; [done|left; split; [set_solver|done]]].
  destruct (texts df !! "best_model") as [bm|] eqn:H6;
    [|injection H as <-; eexists; split; [done|by right]].
  discriminate H.
Qed.

(** X1: for a threshold that is a number and a file with the types of
    [typed_xray], the block raises exactly when the file lacks one of the
    five columns of numbers that it reads with [df[col]] or the column
    [best_model]; what it raises then is the [KeyError] of a column that the
    file does not have.  No optional column and no value of a cell or of the
    threshold makes it raise. *)
Theorem xray_raises_iff_required_missing df thr :
  typed_xray df ->
  (is_ok (xray_locals df thr) = true <-> has_required df) /\
  (forall e, xray_locals df thr = Raise e ->
     exists col, e = KeyError col /\ col ∈ "best_model" :: required_columns /\
       floats df !! col = None /\ texts df !! col = None).
Proof.
  intros [Htexts Hbm]. split; [exact (xray_ok_iff_required df thr)|].
  intros e (col & -> & [[Hcol Hnone] | [-> Hnone]])%xray_locals_Raise;
    exists col || exists "best_model".
  - split; [done|]. split; [by right|]. split; [done|].
    apply (proj1 (Forall_forall _ _) Htexts). apply elem_of_app. by left.
  - split; [done|]. split; [by left|]. done.
Qed.

Lemma add_group_spec t fig :
  add_group t fig =
    {| data := data fig ++ List.filter (fun t => negb (bool_decide (x t = []))) [t];
       annotations := annotations fig |}.
Proof.
  unfold add_group. destruct fig as [d a]. destruct (x t) eqn:Hx; cbn; rewrite Hx; cbn.
  - by rewrite app_nil_r.
  - reflexivity.
Qed.

(** X2: for a threshold that is a number and a file with the types of
    [typed_xray], the X-ray panel is one of three things.  With no file it is
    the message "No X-ray data available" and no trace; when the file cannot
    be read or lacks a required column it is the message "Error loading X-ray
    data" and no trace; otherwise it has no message and its traces are the
    groups that have a point, in the order raw, PL, BB, upper limits (so a
    file whose groups are all empty gives an empty panel). *)
Theorem xray_fig_outcomes file thr :
  (forall df, file = Some (Ok df) -> typed_xray df) ->
  (file = None /\
   xray_fig file thr =
     {| data := []; annotations := ["No X-ray data available"] |}) \/
  (exists read, file = Some read /\
     (is_ok read = false \/
      exists df col, read = Ok df /\ col ∈ "best_model" :: required_columns /\
        floats df !! col = None /\ texts df !! col = None) /\
     xray_fig file thr =
       {| data := []; annotations := ["Error loading X-ray data"] |}) \/
  (exists df l, file = Some (Ok df) /\ has_required df /\
     xray_locals df thr = Ok l /\
     xray_fig file thr =
       {| data := List.filter (fun t => negb (bool_decide (x t = [])))
                    [group_src l; group_pl l; group_bb l; group_ul l];
          annotations := [] |}).
Proof.
  intros Htyped.
  destruct file as [[df|e]|]; [|right; left|left; done].
  - pose proof (xray_ok_iff_required df thr) as Hreq.
    specialize (Htyped df eq_refl). destruct Htyped as [Htexts Hbm].
    unfold xray_fig. cbn [mbind result_bind].
    destruct (xray_locals df thr) as [l|e] eqn:Hok.
    + right. right. exists df, l. split; [done|]. split; [by apply Hreq|].
      split; [done|]. rewrite !add_group_spec. cbn [data annotations empty_figure].
      f_equal. cbn [app]. rewrite <- !app_assoc.
      cbn [List.filter].
      by destruct (bool_decide (x (group_src l) = [])),
        (bool_decide (x (group_pl l) = [])), (bool_decide (x (group_bb l) = [])),
        (bool_decide (x (group_ul l) = [])).
    + right. left. exists (Ok df). split; [done|]. split; [|done].
      right. exists df.
      apply xray_locals_Raise in Hok as (col & _ & [[Hcol Hnone] | [-> Hnone]]).
      * exists col. split; [done|]. split; [by right|]. split; [done|].
        apply (proj1 (Forall_forall _ _) Htexts). apply elem_of_app. by left.
      * exists "best_model". split; [done|]. split; [by left|]. done.
  - exists (Raise e). split; [done|]. split; [by left|done].
Qed.

Lemma select_zip {A B} (mask : list bool) (a : list A) (b : list B) :
  zip (select mask a) (select mask b) = select mask (zip a b).
Proof.
  revert a b. induction mask as [|m mask IH]; intros [|u a] [|v b]; cbn; try done.
  - by destruct m, (select mask a).
  - destruct m; cbn; by rewrite IH.
Qed.

Lemma select_sublist {A} (mask : list bool) (a : list A) :
  select mask a `sublist_of` a.
Proof.
  revert a. induction mask as [|m mask IH]; intros [|u a]; cbn;
    try apply sublist_nil_l.
  destruct m; [by apply sublist_skip|by apply sublist_cons].
Qed.

Lemma select_points {A B} (mask : list bool) (a : list A) (b : list B) :
  zip (select mask a) (select mask b) `sublist_of` zip a b /\
  forall u v, (u, v) ∈ zip (select mask a) (select mask b) <->
    exists i, mask !! i = Some true /\ a !! i = Some u /\ b !! i = Some v.
Proof.
  rewrite select_zip. split; [apply select_sublist|].
  intros u v. rewrite select_elem_of. split.
  - intros (i & Hm & Hz). exists i. split; [done|].
    apply lookup_zip_with_Some in Hz as (u' & v' & [= -> ->] & Ha & Hb). done.
  - intros (i & Hm & Ha & Hb). exists i. split; [done|].
    apply lookup_zip_with_Some. by exists u, v.
Qed.

(** X3: the points of each plotted group are rows of the file, in the order
    of the file, each with the time and the value of one and the same row:
    the raw detections plot [src_flux], the power-law group [flux_fit_pl],
    the blackbody group [flux_fit_bb] and the upper limits [src_flux_UL], and
    a point is plotted in a group exactly for the rows where the mask of that
    group holds. *)
Theorem xray_points_of_rows (l : locals) :
  Forall (fun '(t, mask, col) =>
            zip (x t) (y t) `sublist_of` zip (mjd_vals l) col /\
            forall a b, (a, b) ∈ zip (x t) (y t) <->
              exists i, mask !! i = Some true /\ mjd_vals l !! i = Some a /\
                        col !! i = Some b)
    [(group_src l, src_det_mask l, src_flux l);
     (group_pl l, pl_mask l, flux_fit_pl l);
     (group_bb l, bb_mask l, flux_fit_bb l);
     (group_ul l, ul_mask l, src_ul_vals l)].
Proof. repeat apply List.Forall_cons; try apply List.Forall_nil; apply select_points. Qed.

(** X5: surrounding whitespace in a best-model cell does not change the
    label that is compared with "PL" and "BB", and a cell that is missing or
    holds whitespace only gives the empty label. *)
Theorem normalize_ignores_padding (a s b : string) :
  PyText.blank a = true -> PyText.blank b = true ->
  normalize (Some (a ++ s ++ b)%string) = normalize (Some s) /\
  normalize (Some a) = EmptyString /\ normalize None = EmptyString.
Proof.
  intros Ha Hb. unfold normalize. cbn [from_option]. unfold Datatypes.id.
  split; [|split; [|done]].
  - rewrite !upper_app. apply strip_app_blank; by rewrite blank_upper.
  - apply strip_empty_iff. by rewrite blank_upper.
Qed.

Lemma normalize_ignores_padding_witness :
  normalize (Some ("  " ++ "pl" ++ " ")%string) = normalize (Some "pl") /\
  normalize (Some "  ") = EmptyString /\ normalize None = EmptyString.
Proof. apply normalize_ignores_padding; reflexivity. Defined.

Lemma groups_cover_every_row_witness :
  exists l,
    xray_locals Samples.four_rows (F64.of_Z 3) = Ok l /\
    (length (x (group_src l)) + length (x (group_pl l)) + length (x (group_bb l))
     + length (x (group_ul l)) = 4)%nat.
Proof.
  eexists. split; [vm_compute; reflexivity|].
  apply (groups_cover_every_row Samples.four_rows (F64.of_Z 3)).
  - exact wf_four_rows.
  - reflexivity.
  - vm_compute; reflexivity.
  - cbn. repeat (apply List.Forall_cons; [reflexivity|]). apply List.Forall_nil.
  - cbn. repeat (apply List.Forall_cons; [auto|]). apply List.Forall_nil.
Defined.
End XrayPanel.

(** * The spectrum panel *)

Section SpectrumPanelFacts.
Import Spectrum SpectrumPanel.

(** On a file that is read as numbers, or not read at all, a turn changes
    the figure as [spectrum_step] does. *)
Lemma spectrum_turn_step z fig ys file :
  (forall df_spec, exists ys',
     spectrum_turn z (fig, ys) (file, Numbers df_spec) =
       Ok (spectrum_step z fig (file, Ok df_spec), ys')) /\
  (forall e,
     spectrum_turn z (fig, ys) (file, Unreadable e) =
       Ok (spectrum_step z fig (file, Raise e), ys)).
Proof.
  split; [|done]. intros df_spec. unfold spectrum_turn, spectrum_step. cbn [fst snd].
  destruct (skipped df_spec); [by exists ys|].
  destruct df_spec as [|wl [|inten others]]; by eexists.
Qed.

Lemma spectrum_turn_spec z fig ys entry :
  spectrum_turn z (fig, ys) entry =
    if stops entry then Raise TypeError
    else Ok ({| data := data fig ++ option_list (file_trace z entry);
                annotations := annotations fig |},
             ys ++ concat (y <$> option_list (file_trace z entry))).
Proof.
  destruct fig as [d a], entry as [file [e|[|wl [|inten others]]|rows columns]];
    unfold spectrum_turn, file_trace, stops, add_trace;
    cbn [data annotations option_list fst snd fmap list_fmap concat].
  - by rewrite !app_nil_r.
  - by rewrite !app_nil_r.
  - replace (skipped [wl]) with true by (cbn; by rewrite orb_true_r).
    by rewrite !app_nil_r.
  - destruct (skipped (wl :: inten :: others)); cbn; by rewrite ?app_nil_r.
  - destruct (Nat.eqb rows 0 || Nat.ltb columns 2); cbn [negb]; by rewrite ?app_nil_r.
Qed.

Lemma spectrum_loop_spec z files fig ys :
  spectrum_loop z files (fig, ys) =
    let ts := omap (file_trace z) (until_stop files) in
    (({| data := data fig ++ ts; annotations := annotations fig |},
      ys ++ concat (y <$> ts)),
     if existsb stops files then Some TypeError else None).
Proof.
  revert fig ys. induction files as [|entry files IH]; intros fig ys;
    cbn [spectrum_loop until_stop existsb].
  - destruct fig. cbn. by rewrite !app_nil_r.
  - rewrite spectrum_turn_spec. destruct (stops entry); cbn [orb].
    + destruct fig. cbn. by rewrite !app_nil_r.
    + rewrite IH. cbn zeta. cbn [data annotations omap list_omap].
      destruct (file_trace z entry) as [t|]; cbn.
      * by rewrite app_nil_r, <- !app_assoc.
      * by rewrite !app_nil_r.
Qed.

(** X6: the spectrum panel is one of five things.  Without the folder it
    is the message "No spectrum folder found".  When the folder cannot be
    listed it is the message "Error loading spectrum".  When no name of the
    folder is without a leading dot it is the message "No spectrum files
    found".  When one of the files has a string in its first column (and a
    row, and two columns), the panel is the message "Error loading
    spectrum" with the traces of the files before the first such file: the
    files after it are lost.  Otherwise the panel has one trace for each
    file that can be read, is not empty and has two columns or more, in the
    order of the listing; the message "No valid spectrum traces found" when
    there is no trace; and the three labels of the rest-frame lines when a
    trace has a point. *)
Theorem spectrum_fig_outcomes folder z :
  (folder = None /\
   spectrum_fig folder z =
     {| data := []; annotations := ["No spectrum folder found"] |}) \/
  (exists e, folder = Some (Raise e) /\
     spectrum_fig folder z =
       {| data := []; annotations := ["Error loading spectrum"] |}) \/
  (exists listing, folder = Some (Ok listing) /\ visible listing = [] /\
     spectrum_fig folder z =
       {| data := []; annotations := ["No spectrum files found"] |}) \/
  (exists listing, folder = Some (Ok listing) /\
     existsb stops (visible listing) = true /\
     spectrum_fig folder z =
       {| data := omap (file_trace z) (until_stop (visible listing));
          annotations := ["Error loading spectrum"] |}) \/
  (exists listing, folder = Some (Ok listing) /\ visible listing <> [] /\
     existsb stops (visible listing) = false /\
     spectrum_fig folder z =
       let ts := omap (file_trace z) (visible listing) in
       {| data := ts;
          annotations :=
            (match ts with [] => ["No valid spectrum traces found"] | _ :: _ => [] end) ++
            (match concat (y <$> ts) with [] => [] | _ :: _ => ["H α"; "H β"; "He II"] end) |}).
Proof.
  destruct folder as [[listing|e]|]; [|right; left; by exists e|by left].
  do 2 right. unfold spectrum_fig. fold (visible listing).
  destruct (visible listing) as [|f fs] eqn:Hv; [left; by exists listing|right].
  rewrite spectrum_loop_spec. cbv zeta.
  cbn [data annotations empty_figure app].
  destruct (existsb stops (f :: fs)) eqn:Hstop.
  - left. exists listing. by rewrite Hv, Hstop.
  - right. exists listing. rewrite Hv, Hstop. split; [done|]. split; [done|]. split; [done|].
    assert (Hall : until_stop (f :: fs) = f :: fs).
    { clear Hv. revert Hstop. generalize (f :: fs). intros l.
      induction l as [|g l IH]; [done|]. cbn [existsb until_stop].
      intros [-> Hl]%orb_false_elim. by rewrite IH. }
    rewrite Hall.
    destruct (omap (file_trace z) (f :: fs)) as [|t ts] eqn:Hts; cbn [fmap list_fmap concat].
    + reflexivity.
    + cbn [data]. destruct (y t ++ concat (y <$> ts)); reflexivity.
Qed.
(** A folder with a hidden file, a spectrum, a file with a header line and
    one more spectrum: the first spectrum is plotted, the last one is not. *)
Example spectrum_fig_header_line :
  spectrum_fig (Some (Ok MoreSamples.spectra)) F64.one =
    {| data := [Scatter "a.dat" [F64.of_Z 2000; F64.of_Z 3000] [F64.one; F64.two] None];
       annotations := ["Error loading spectrum"] |}.
Proof. vm_compute. reflexivity. Qed.
End SpectrumPanelFacts.

(** * The UVOT panel *)

Section UvotPanelFacts.
Import UvotPanel.

(** The three tables have the six filter codes as keys. *)
Lemma uvot_tables_entries flt :
  flt ∈ Uvot.uvot_filters ->
  exists off symbol color,
    Uvot.offset flt = Ok off /\ uvot_markers !! flt = Some symbol /\
    uvot_colors !! flt = Some color.
Proof.
  unfold Uvot.uvot_filters. rewrite !elem_of_cons, elem_of_nil. intros Hin.
  repeat (destruct Hin as [->|Hin];
    [eexists _, _, _; repeat split; vm_compute; reflexivity|]).
  done.
Qed.

Lemma offset_entries flt off :
  Uvot.offset flt = Ok off ->
  exists zp ab vega,
    Uvot.zeropoints_new !! flt = Some zp /\ zp !! "ab" = Some ab /\
    zp !! "vega" = Some vega /\ off = F64.sub ab vega.
Proof.
  unfold Uvot.offset, Uvot.getitem.
  destruct (Uvot.zeropoints_new !! flt) as [zp|] eqn:Hzp; [|discriminate].
  cbn [mbind result_bind].
  destruct (zp !! "ab") as [ab|] eqn:Hab; [|discriminate].
  cbn [mbind result_bind].
  destruct (zp !! "vega") as [vega|] eqn:Hvega; [|discriminate].
  cbn [mbind result_bind mret result_ret]. intros [= <-]. by exists zp, ab, vega.
Qed.

Lemma uvot_trace_with_mjd df mjd flt :
  flt ∈ Uvot.uvot_filters -> floats df !! "mjd" = Some mjd ->
  (has_filter df flt = false /\ uvot_trace df flt = Ok None) \/
  (exists mag err off symbol color,
     has_filter df flt = true /\
     floats df !! mag_col flt = Some mag /\ floats df !! err_col flt = Some err /\
     Uvot.offset flt = Ok off /\ uvot_markers !! flt = Some symbol /\
     uvot_colors !! flt = Some color /\
     uvot_trace df flt =
       Ok (Some (MagScatter (String.append "UVOT " (PyStr.upper flt)) mjd
                   ((fun m => F64.add m off) <$> mag) err (Some (symbol, color))))).
Proof.
  intros (off & symbol & color & Hoff & Hsym & Hcol)%uvot_tables_entries Hmjd.
  unfold has_filter, uvot_trace.
  destruct (floats df !! mag_col flt) as [mag|]; [|by left].
  destruct (floats df !! err_col flt) as [err|]; [|by left].
  right. exists mag, err, off, symbol, color. repeat split; try done.
  unfold Uvot.swift_vega_to_ab_series, getitem, Uvot.getitem.
  rewrite Hoff, Hmjd, Hsym, Hcol. reflexivity.
Qed.


(** On a file with the types of [typed_uvot], a filter has its two columns
    among the float64 columns exactly when the file has the two columns. *)
Lemma has_filter_columns df flt :
  typed_uvot df -> flt ∈ Uvot.uvot_filters ->
  has_filter df flt = has_column df (mag_col flt) && has_column df (err_col flt).
Proof.
  intros Htyped Hflt.
  destruct (proj1 (Forall_forall _ _) Htyped flt Hflt) as [Hmag Herr].
  unfold has_filter, has_column. rewrite Hmag, Herr.
  by destruct (floats df !! mag_col flt), (floats df !! err_col flt).
Qed.

Lemma uvot_loop_with_mjd df mjd filters fig :
  filters ⊆ Uvot.uvot_filters -> floats df !! "mjd" = Some mjd ->
  exists ts,
    uvot_loop df filters fig =
      ({| m_data := m_data fig ++ ts; m_annotations := m_annotations fig |}, None) /\
    m_name <$> ts =
      (fun flt => String.append "UVOT " (PyStr.upper flt))
        <$> List.filter (has_filter df) filters /\
    Forall (uvot_trace_of df mjd) ts.
Proof.
  intros Hsub Hmjd. revert fig.
  induction filters as [|flt rest IH]; intros fig.
  - exists []. destruct fig. cbn. by rewrite app_nil_r.
  - assert (Hflt : flt ∈ Uvot.uvot_filters) by (apply Hsub; by left).
    assert (Hrest : rest ⊆ Uvot.uvot_filters)
      by (intros f Hf; apply Hsub; by right).
    cbn [uvot_loop List.filter].
    destruct (uvot_trace_with_mjd df mjd flt Hflt Hmjd)
      as [[Hno ->]|(mag & err & off & symbol & color & Hyes & Hmag & Herr & Hoff
                    & Hsym & Hcol & ->)].
    + rewrite Hno. apply (IH Hrest).
    + rewrite Hyes. set (t := MagScatter _ _ _ _ _).
      destruct (IH Hrest (add_mag_trace t fig)) as (ts & Hloop & Hnames & Hts).
      exists (t :: ts). split; [|split].
      * rewrite Hloop. cbn [add_mag_trace m_data m_annotations].
        by rewrite <- app_assoc.
      * cbn [fmap list_fmap]. cbn [fmap] in Hnames. by rewrite Hnames.
      * apply List.Forall_cons; [|done].
        destruct (offset_entries _ _ Hoff) as (zp & ab & vega & ? & ? & ? & ->).
        by exists flt, mag, err, zp, ab, vega.
Qed.

(** X7: when the UVOT file has an [mjd] column of numbers and the types of
    [typed_uvot] (no magnitude or error column of a filter holds text), the
    panel shows no message: the look-ups in the three filter tables never
    fail.  It has one trace for each filter whose magnitude and error columns
    are both in the file, in the order w2, m2, w1, uu, bb, vv, and each trace
    holds the times, the Vega magnitudes shifted by [ab - vega] of its
    filter, and the errors unchanged. *)
Theorem uvot_fig_with_mjd df mjd :
  typed_uvot df -> floats df !! "mjd" = Some mjd ->
  m_annotations (uvot_fig (Some (Ok df))) = [] /\
  m_name <$> m_data (uvot_fig (Some (Ok df))) =
    (fun flt => String.append "UVOT " (PyStr.upper flt))
      <$> List.filter (fun flt => has_column df (mag_col flt) &&
                                  has_column df (err_col flt)) Uvot.uvot_filters /\
  Forall (uvot_trace_of df mjd) (m_data (uvot_fig (Some (Ok df)))).
Proof.
  intros Htyped Hmjd. unfold uvot_fig.
  destruct (uvot_loop_with_mjd df mjd Uvot.uvot_filters empty_mag_figure)
    as (ts & -> & Hnames & Hts); [done|done|].
  cbn [m_data m_annotations empty_mag_figure app]. split; [done|]. split; [|done].
  rewrite Hnames. f_equal. apply List.filter_ext_in. intros flt Hflt%list_elem_of_In.
  by apply has_filter_columns.
Qed.


End UvotPanelFacts.

(** * The catalogue and the file names *)

Section CatalogueFacts.
Import PyStr PyText Catalogue.
Local Open Scope string_scope.

Lemma has_space_app s1 s2 : has_space (s1 ++ s2) = has_space s1 || has_space s2.
Proof.
  induction s1 as [|c s1 IH]; [done|].
  rewrite append_cons. cbn [has_space]. by rewrite IH, orb_assoc.
Qed.

Lemma append_empty s1 s2 : s1 ++ s2 = EmptyString -> s1 = EmptyString /\ s2 = EmptyString.
Proof. destruct s1; [done|]. rewrite append_cons. discriminate. Qed.

Lemma word_snoc cur c :
  match cur with Some w => word w | None => True end -> isspace c = false ->
  word (default EmptyString cur ++ String c EmptyString).
Proof.
  intros Hcur Hc. split.
  - intros [_ ?]%append_empty. discriminate.
  - rewrite has_space_app. cbn [has_space]. rewrite Hc.
    destruct cur as [w|]; cbn; [by destruct Hcur as [_ ->]|done].
Qed.

Lemma split_from_words cur s :
  match cur with Some w => word w | None => True end ->
  Forall word (split_from cur s).
Proof.
  revert cur. induction s as [|c s IH]; intros cur Hcur; cbn [split_from].
  - destruct cur; [by apply List.Forall_cons|apply List.Forall_nil].
  - destruct (isspace c) eqn:Hc.
    + destruct cur; [apply List.Forall_cons; [done|]|]; by apply IH.
    + apply IH. by apply word_snoc.
Qed.

Lemma split_from_nil cur s :
  split_from cur s = [] <-> cur = None /\ blank s = true.
Proof.
  revert cur. induction s as [|c s IH]; intros cur; cbn [split_from blank].
  - destruct cur; split; try done. by intros [? _].
  - destruct (isspace c); cbn [andb].
    + destruct cur; [split; [done|by intros [? _]]|]. apply IH.
    + rewrite IH. split; [by intros [? _]|by intros [_ ?]].
Qed.

Lemma split_from_word cur w :
  has_space w = false -> (w <> EmptyString \/ is_Some cur) ->
  split_from cur w = [default EmptyString cur ++ w].
Proof.
  revert cur. induction w as [|c w IH]; intros cur Hw Hne; cbn [split_from].
  - destruct Hne as [|[u ->]]; [done|]. cbn. by rewrite append_nil_r.
  - cbn [has_space] in Hw. apply orb_false_elim in Hw as [Hc Hw]. rewrite Hc.
    rewrite IH by eauto. cbn [from_option]. unfold Datatypes.id.
    by rewrite append_assoc.
Qed.

Lemma word_strip w : word w -> strip w = w.
Proof.
  intros [Hne Hw]. destruct w as [|c w]; [done|].
  cbn [has_space] in Hw. apply orb_false_elim in Hw as [Hc Hw].
  rewrite strip_cons by done. f_equal.
  clear Hne Hc c. induction w as [|c w IH]; [done|].
  cbn [has_space] in Hw. apply orb_false_elim in Hw as [Hc Hw].
  by rewrite rstrip_cons, Hc, IH.
Qed.

Lemma filled_spec s : filled (Some s) = negb (blank s).
Proof.
  cbn. destruct (blank s) eqn:Hb.
  - apply strip_empty_iff in Hb. by rewrite Hb.
  - destruct (String.eqb_spec (strip s) EmptyString) as [He|]; [|done].
    apply strip_empty_iff in He. congruence.
Qed.

Lemma extract_identifier_spec name :
  exists r,
    extract_identifier name = Item r /\
    (r = None <-> filled name = false) /\
    (forall id, r = Some id ->
       word id /\ extract_identifier (Some id) = Item (Some id)).
Proof.
  assert (Hword : forall id, word id -> extract_identifier (Some id) = Item (Some id)).
  { intros id Hid. unfold extract_identifier. rewrite (word_strip _ Hid).
    destruct Hid as [Hne Hsp].
    destruct (String.eqb_spec id EmptyString) as [|_]; [done|]. cbn [negb].
    unfold split. rewrite split_from_word by auto. done. }
  destruct name as [s|]; [|exists None; cbn; split; [done|split; [done|congruence]]].
  unfold extract_identifier.
  pose proof (filled_spec s) as Hf. cbn [filled] in Hf |- *. rewrite Hf.
  destruct (blank s) eqn:Hb; cbn [negb].
  - exists None. split; [done|]. split; [done|congruence].
  - pose proof (split_from_words None s I) as Hws. fold (split s) in Hws.
    destruct (last (split s)) as [w|] eqn:Hlast.
    + exists (Some w). split; [done|]. split; [done|].
      intros id [= <-].
      assert (Hw : word w).
      { apply last_Some in Hlast as [l' Hl]. rewrite Hl in Hws.
        by apply Forall_app in Hws as [_ [? _]%Forall_cons]. }
      split; [done|by apply Hword].
    + apply last_None in Hlast. apply split_from_nil in Hlast as [_ ?]. congruence.
Qed.

(** X9: [extract_identifier] never fails on [split()[-1]].  It gives [None]
    exactly for a cell that is missing or holds whitespace only; otherwise
    the identifier is not empty, holds no whitespace, and is its own
    identifier. *)
Theorem extract_identifier_total name :
  exists r,
    extract_identifier name = Item r /\
    (r = None <-> filled name = false) /\
    (forall id, r = Some id ->
       id <> EmptyString /\ has_space id = false /\
       extract_identifier (Some id) = Item (Some id)).
Proof.
  destruct (extract_identifier_spec name) as (r & Hr & Hnone & Hsome).
  exists r. split; [done|]. split; [done|].
  intros id Hid. destruct (Hsome id Hid) as [[? ?] ?]. done.
Qed.

Lemma replace_AT_head c t :
  isspace c = false ->
  exists c' t', replace "AT " "AT" (String c t) = String c' t' /\ isspace c' = false.
Proof.
  intros Hc. unfold replace. cbn [replace_from].
  destruct (String.prefix "AT " (String c t)).
  - eexists _, _. split; [reflexivity|done].
  - eexists _, _. split; [reflexivity|done].
Qed.

Lemma filled_cons c t : isspace c = false -> filled (Some (String c t)) = true.
Proof. intros Hc. unfold filled. by rewrite strip_cons. Qed.

Lemma filled_strip s : filled (Some (strip s)) = filled (Some s).
Proof.
  destruct (strip_head s) as [He|(c & t & He & Hc)].
  - rewrite He. unfold filled. by rewrite He.
  - rewrite He, filled_cons by done. unfold filled. by rewrite He.
Qed.

Lemma filled_replace_AT s :
  filled (Some s) = true -> filled (Some (replace "AT " "AT" (strip s))) = true.
Proof.
  intros Hs. destruct (strip_head s) as [He|(c & t & He & Hc)].
  - unfold filled in Hs. by rewrite He in Hs.
  - rewrite He. destruct (replace_AT_head c t Hc) as (c' & t' & -> & Hc').
    by apply filled_cons.
Qed.

Lemma alternative_plain_filled r :
  filled (Some (alternative_plain r)) = filled (Alternative_name r) /\
  (filled (Alternative_name r) = false -> alternative_plain r = EmptyString).
Proof.
  unfold alternative_plain. destruct (Alternative_name r) as [s|]; [|done].
  pose proof (filled_strip s) as Hs. cbn [filled] in Hs |- *.
  destruct (negb (strip s =? EmptyString)); [|done]. split; [exact Hs|done].
Qed.

Lemma AT_name_plain_filled r :
  filled (Some (AT_name_plain r)) =
    filled (AT_name r) || filled (Alternative_name r) /\
  (filled (AT_name r) = false -> AT_name_plain r = alternative_plain r).
Proof.
  destruct (alternative_plain_filled r) as [Halt _].
  unfold AT_name_plain. destruct (AT_name r) as [s|]; [|done].
  pose proof (filled_replace_AT s) as Hs. cbn [filled] in Hs |- *.
  destruct (negb (strip s =? EmptyString)); [|done].
  split; [by rewrite Hs|done].
Qed.

(** X10: the plain name of an object is empty exactly when its AT name and
    its alternative name are both missing or blank; in every other case it
    holds a character that is no whitespace (it is the AT name when there is
    one, the alternative name otherwise). *)
Theorem AT_name_plain_empty_iff r :
  (AT_name_plain r = EmptyString <->
     filled (AT_name r) = false /\ filled (Alternative_name r) = false) /\
  filled (Some (AT_name_plain r)) = negb (AT_name_plain r =? EmptyString) /\
  (filled (AT_name r) = false -> AT_name_plain r = alternative_plain r).
Proof.
  destruct (AT_name_plain_filled r) as [Hf Halt].
  destruct (alternative_plain_filled r) as [_ Hnone].
  assert (Hiff : AT_name_plain r = EmptyString <->
     filled (AT_name r) = false /\ filled (Alternative_name r) = false).
  { split.
    - intros He. rewrite He in Hf. cbn in Hf. symmetry in Hf.
      by apply orb_false_elim in Hf.
    - intros [H1 H2]. rewrite (Halt H1). by apply Hnone. }
  split; [exact Hiff|]. split; [|exact Halt].
  rewrite Hf. destruct (String.eqb_spec (AT_name_plain r) EmptyString) as [He|Hne]; cbn [negb].
  - apply Hiff in He as [-> ->]. done.
  - destruct (filled (AT_name r)) eqn:H1, (filled (Alternative_name r)) eqn:H2;
      try done. exfalso. by apply Hne, Hiff.
Qed.

Lemma load_spec r :
  exists identifier identifier2 identifier3,
    extract_identifier (AT_name r) = Item identifier /\
    extract_identifier (ZTF_name r) = Item identifier2 /\
    extract_identifier (Gaia_alert_name r) = Item identifier3 /\
    load r =
      Item {| l_AT_name := markdown_link base_url_at (AT_name r) identifier;
              l_ZTF_name := markdown_link base_url_ztf (ZTF_name r) identifier2;
              l_Gaia_alert_name :=
                markdown_link base_url_gaia (Gaia_alert_name r) identifier3;
              l_Alternative_name := Alternative_name r;
              l_Redshift := Redshift r;
              l_AT_name_plain := AT_name_plain r;
              l_ZTF_name_plain := ZTF_name_plain r;
              l_identifier := identifier;
              l_identifier2 := identifier2;
              l_identifier3 := identifier3 |}.
Proof.
  destruct (extract_identifier_spec (AT_name r)) as (i1 & H1 & _).
  destruct (extract_identifier_spec (ZTF_name r)) as (i2 & H2 & _).
  destruct (extract_identifier_spec (Gaia_alert_name r)) as (i3 & H3 & _).
  exists i1, i2, i3. unfold load. by rewrite H1, H2, H3.
Qed.

Lemma markdown_link_spec base name r :
  extract_identifier name = Item r ->
  (markdown_link base name r = None <-> filled name = false) /\
  forall link, markdown_link base name r = Some link ->
    exists n id,
      name = Some n /\ id <> EmptyString /\ has_space id = false /\
      link = "[" ++ n ++ "](" ++ base ++ id ++ ")".
Proof.
  intros Hr. destruct (extract_identifier_spec name) as (r' & Hr' & Hnone & Hsome).
  rewrite Hr in Hr'. injection Hr' as <-.
  destruct name as [n|]; [|split; [done|discriminate]].
  destruct r as [id|]; cbn [markdown_link].
  - split.
    + split; [discriminate|]. intros Hf. apply Hnone in Hf. discriminate.
    + intros link [= <-]. exists n, id. destruct (Hsome id eq_refl) as [[? ?] _].
      repeat split; try done. by rewrite !append_assoc.
  - split; [|discriminate]. split; [intros _; by apply Hnone|done].
Qed.

(** X11: in a row of the catalogue once it is loaded, each of the three name
    columns holds a link exactly when the name of that row is filled, and is
    missing otherwise; the link is [[name](base_url + identifier)] with the
    name as it is in the file and an identifier that is not empty and holds
    no whitespace. *)
Theorem load_links r row :
  load r = Item row ->
  Forall (fun '(link_cell, base, name) =>
            (link_cell = None <-> filled name = false) /\
            forall link, link_cell = Some link ->
              exists n id,
                name = Some n /\ id <> EmptyString /\ has_space id = false /\
                link = "[" ++ n ++ "](" ++ base ++ id ++ ")")
    [(l_AT_name row, base_url_at, AT_name r);
     (l_ZTF_name row, base_url_ztf, ZTF_name r);
     (l_Gaia_alert_name row, base_url_gaia, Gaia_alert_name r)].
Proof.
  destruct (load_spec r) as (i1 & i2 & i3 & H1 & H2 & H3 & Hload).
  rewrite Hload. intros [= <-]. cbn [l_AT_name l_ZTF_name l_Gaia_alert_name].
  repeat apply List.Forall_cons; try apply List.Forall_nil;
    by apply markdown_link_spec.
Qed.

Lemma name_for_file_spec r row :
  load r = Item row ->
  name_for_file row =
    if filled (AT_name r) || filled (Alternative_name r)
    then Some (AT_name_plain r) else strip <$> ZTF_name r.
Proof.
  destruct (load_spec r) as (i1 & i2 & i3 & _ & _ & _ & ->). intros [= <-].
  unfold name_for_file. cbn [l_AT_name_plain l_ZTF_name_plain].
  destruct (AT_name_plain_filled r) as [Hf _]. cbn [filled] in Hf. by rewrite Hf.
Qed.

(** X12: the name used for the files of an object is the plain name whenever
    the AT name or the alternative name is filled, and the stripped ZTF name
    otherwise.  It is missing (NaN) exactly when all three are missing (the
    first two may also be blank), and exactly then building the first file
    name raises [TypeError], outside of any [try]. *)
Theorem name_for_file_missing_iff r row :
  load r = Item row ->
  name_for_file row =
    (if filled (AT_name r) || filled (Alternative_name r)
     then Some (AT_name_plain r) else strip <$> ZTF_name r) /\
  (name_for_file row = None <->
     filled (AT_name r) = false /\ filled (Alternative_name r) = false /\
     ZTF_name r = None) /\
  (optical_file_name row = Raise TypeError <-> name_for_file row = None) /\
  (forall n, name_for_file row = Some n ->
     optical_file_name row = Ok ("target_" ++ n ++ "_photometry.csv")).
Proof.
  intros Hload. pose proof (name_for_file_spec r row Hload) as Hnf.
  split; [exact Hnf|]. split; [|split].
  - rewrite Hnf.
    destruct (filled (AT_name r)), (filled (Alternative_name r)); cbn [orb];
      try (split; [discriminate|by intros (? & ? & ?)]).
    destruct (ZTF_name r); cbn; split; try done. by intros (_ & _ & ?).
  - unfold optical_file_name. by destruct (name_for_file row).
  - intros n Hn. unfold optical_file_name. by rewrite Hn, !append_assoc.
Qed.

(** X13: [spec_name] is always [name_for_file]: when [name_for_file] is
    missing or blank, the AT name column (which holds the link by then) and
    the alternative name are missing or blank too, so the two fall-backs of
    lines 446-449 are never taken. *)
Theorem spec_name_is_name_for_file r row :
  load r = Item row -> spec_name row = name_for_file row.
Proof.
  intros Hload. pose proof (name_for_file_spec r row Hload) as Hnf.
  destruct (load_spec r) as (i1 & i2 & i3 & H1 & _ & _ & Hrow).
  rewrite Hrow in Hload. injection Hload as <-.
  unfold spec_name. rewrite Hnf. cbn [l_AT_name l_Alternative_name].
  destruct (AT_name_plain_filled r) as [Hf _].
  destruct (filled (AT_name r)) eqn:HAT; cbn [orb] in *; [by rewrite Hf|].
  destruct (filled (Alternative_name r)) eqn:HAlt; cbn [orb] in *; [by rewrite Hf|].
  destruct (markdown_link_spec base_url_at (AT_name r) i1 H1) as [Hnone _].
  rewrite (proj2 Hnone HAT). cbn [filled].
  by destruct (filled (strip <$> ZTF_name r)).
Qed.
End CatalogueFacts.

(** * The optical panel *)

Section OpticalFacts.
Import Optical.

Lemma compare_refl a : String.compare a a = Eq.
Proof.
  pose proof (String.compare_antisym a a) as H.
  by destruct (String.compare a a).
Qed.

Lemma slt_irrefl a : ~ slt a a.
Proof. unfold slt. by rewrite compare_refl. Qed.

Lemma slt_le a b : slt a b -> String.le a b.
Proof. unfold slt, String.le, String.leb. by intros ->. Qed.

Lemma slt_trans a b c : slt a b -> slt b c -> slt a c.
Proof.
  intros Hab Hbc.
  assert (Hle : String.le a c) by (etrans; by apply slt_le).
  unfold String.le, String.leb in Hle. unfold slt.
  destruct (String.compare a c) eqn:Hac; [|done|done].
  apply String.compare_eq_iff in Hac as ->.
  assert (b = c) as ->
    by (apply (anti_symm String.le); by apply slt_le).
  by apply slt_irrefl in Hbc.
Qed.

Lemma compare_Gt_slt a b : String.compare a b = Gt -> slt b a.
Proof. unfold slt. rewrite (String.compare_antisym a b). by destruct (String.compare b a). Qed.

Lemma elem_of_insert_key x k keys : x ∈ insert_key k keys <-> x = k \/ x ∈ keys.
Proof.
  induction keys as [|k' rest IH]; cbn [insert_key].
  - set_solver.
  - destruct (String.compare k k') eqn:Hc.
    + apply String.compare_eq_iff in Hc as ->. set_solver.
    + set_solver.
    + rewrite elem_of_cons, IH. set_solver.
Qed.

Lemma insert_key_sorted k keys :
  StronglySorted slt keys -> StronglySorted slt (insert_key k keys).
Proof.
  induction keys as [|k' rest IH]; cbn [insert_key]; intros Hs.
  - repeat constructor.
  - apply StronglySorted_cons in Hs as [Hall Hrest].
    destruct (String.compare k k') eqn:Hc.
    + by apply StronglySorted_cons.
    + apply StronglySorted_cons. split; [|by apply StronglySorted_cons].
      apply List.Forall_cons; [done|].
      eapply Forall_impl; [exact Hall|]. intros y Hy. by eapply slt_trans.
    + apply StronglySorted_cons. split; [|by apply IH].
      apply Forall_forall. intros y [->|Hy]%elem_of_insert_key.
      * by apply compare_Gt_slt.
      * by apply (proj1 (Forall_forall _ _) Hall).
Qed.

Lemma insert_key_new k keys : k ∉ keys -> insert_key k keys ≡ₚ k :: keys.
Proof.
  induction keys as [|k' rest IH]; cbn [insert_key]; intros Hk; [done|].
  apply not_elem_of_cons in Hk as [Hne Hk].
  destruct (String.compare k k') eqn:Hc.
  - by apply String.compare_eq_iff in Hc.
  - done.
  - rewrite (IH Hk). apply perm_swap.
Qed.

Lemma insert_key_old k keys :
  StronglySorted slt keys -> k ∈ keys -> insert_key k keys = keys.
Proof.
  induction keys as [|k' rest IH]; cbn [insert_key]; intros Hs Hk.
  - by apply elem_of_nil in Hk.
  - apply StronglySorted_cons in Hs as [Hall Hrest].
    destruct (String.compare k k') eqn:Hc; [done| |].
    + exfalso. apply elem_of_cons in Hk as [->|Hk]; [by apply slt_irrefl in Hc|].
      apply (slt_irrefl k). eapply slt_trans; [exact Hc|].
      by apply (proj1 (Forall_forall _ _) Hall).
    + f_equal. apply IH; [done|].
      apply elem_of_cons in Hk as [->|Hk]; [|done].
      rewrite compare_refl in Hc. discriminate.
Qed.

Lemma group_keys_sorted col : StronglySorted slt (group_keys col).
Proof.
  induction col as [|[k|] col IH]; cbn [group_keys];
    [constructor|by apply insert_key_sorted|done].
Qed.

Lemma sorted_NoDup keys : StronglySorted slt keys -> NoDup keys.
Proof.
  induction keys as [|k keys IH]; [constructor|].
  intros [Hall Hs]%StronglySorted_cons. apply NoDup_cons. split; [|by apply IH].
  intros Hin. apply (slt_irrefl k). by apply (proj1 (Forall_forall _ _) Hall).
Qed.

Lemma group_keys_NoDup col : NoDup (group_keys col).
Proof. apply sorted_NoDup, group_keys_sorted. Qed.

Lemma elem_of_group_keys k col : k ∈ group_keys col <-> Some k ∈ col.
Proof.
  induction col as [|[k'|] col IH]; cbn [group_keys].
  - set_solver.
  - rewrite elem_of_insert_key, IH. set_solver.
  - rewrite IH. set_solver.
Qed.

Lemma rows_of_cons c col filt :
  rows_of (c :: col) filt =
    ((if bool_decide (c = Some filt) then 1 else 0) + rows_of col filt)%nat.
Proof. unfold rows_of. cbn. by destruct (bool_decide (c = Some filt)). Qed.

Lemma rows_of_absent col filt : Some filt ∉ col -> rows_of col filt = 0%nat.
Proof.
  induction col as [|c col IH]; [done|]. intros [Hne Hc]%not_elem_of_cons.
  rewrite rows_of_cons, IH by done. by rewrite bool_decide_eq_false_2.
Qed.

Lemma sum_rows_of_cons_None keys col :
  sum_list_with (rows_of (None :: col)) keys = sum_list_with (rows_of col) keys.
Proof. induction keys as [|k keys IH]; [done|]. cbn. by rewrite IH. Qed.

Lemma sum_rows_of_cons_Some k keys col :
  StronglySorted slt keys ->
  sum_list_with (rows_of (Some k :: col)) keys =
    ((if bool_decide (k ∈ keys) then 1 else 0) + sum_list_with (rows_of col) keys)%nat.
Proof.
  induction keys as [|k' keys IH]; [done|]. intros Hs.
  apply StronglySorted_cons in Hs as [Hall Hs].
  cbn [sum_list_with]. rewrite rows_of_cons, (IH Hs).
  destruct (decide (k = k')) as [->|Hne].
  - rewrite (bool_decide_eq_true_2 (Some k' = Some k')) by done.
    rewrite (bool_decide_eq_true_2 (k' ∈ k' :: keys)) by (by left).
    rewrite (bool_decide_eq_false_2 (k' ∈ keys)); [lia|].
    intros Hin. apply (slt_irrefl k').
    by apply (proj1 (Forall_forall _ _) Hall).
  - rewrite (bool_decide_eq_false_2 (Some k = Some k')) by congruence.
    destruct (decide (k ∈ keys)) as [Hin|Hnin].
    + rewrite (bool_decide_eq_true_2 (k ∈ keys)) by done.
      rewrite (bool_decide_eq_true_2 (k ∈ k' :: keys)) by (by right). lia.
    + rewrite (bool_decide_eq_false_2 (k ∈ keys)) by done.
      rewrite (bool_decide_eq_false_2 (k ∈ k' :: keys))
        by (by intros [?|?]%elem_of_cons).
      lia.
Qed.

(** Every row with a filter is in the group of one key. *)
Lemma sum_rows_of_group_keys col :
  sum_list_with (rows_of col) (group_keys col)
  = length (omap (fun c : option string => c) col).
Proof.
  induction col as [|[k|] col IH]; cbn [group_keys omap list_omap]; [done| |].
  - pose proof (group_keys_sorted col) as Hs.
    destruct (decide (k ∈ group_keys col)) as [Hin|Hnin].
    + rewrite (insert_key_old _ _ Hs Hin), (sum_rows_of_cons_Some _ _ _ Hs).
      rewrite bool_decide_eq_true_2 by done. cbn. by rewrite IH.
    + rewrite (insert_key_new _ _ Hnin). cbn [sum_list_with].
      rewrite (sum_rows_of_cons_Some _ _ _ Hs), rows_of_cons.
      rewrite bool_decide_eq_true_2 by done.
      rewrite bool_decide_eq_false_2 by done.
      rewrite rows_of_absent by (by rewrite <- elem_of_group_keys).
      cbn. by rewrite IH.
  - by rewrite sum_rows_of_cons_None.
Qed.

Lemma select_length_mask {A} (col : list (option string)) filt (a : list A) :
  length a = length col ->
  length (select (group_mask col filt) a) = rows_of col filt.
Proof.
  revert a. induction col as [|c col IH]; intros [|u a] Hlen; try done.
  cbn [group_mask fmap list_fmap select]. rewrite rows_of_cons.
  injection Hlen as Hlen. specialize (IH a Hlen). unfold group_mask in IH.
  destruct (bool_decide (c = Some filt)); cbn [length]; by rewrite IH.
Qed.

Lemma optical_loop_ok df col mjd mag err keys fig :
  floats df !! "MJD" = Some mjd -> floats df !! "Magnitude" = Some mag ->
  floats df !! "Error" = Some err ->
  optical_loop df col keys fig =
    ({| m_data := m_data fig ++ (group_trace col mjd mag err <$> keys);
        m_annotations := m_annotations fig |}, None).
Proof.
  intros Hmjd Hmag Herr. revert fig.
  induction keys as [|k keys IH]; intros fig; cbn [optical_loop fmap list_fmap].
  - destruct fig. cbn. by rewrite app_nil_r.
  - unfold optical_trace, getitem. rewrite Hmjd, Hmag, Herr.
    cbn [mbind result_bind mret result_ret]. rewrite IH.
    cbn [add_mag_trace m_data m_annotations]. by rewrite <- app_assoc.
Qed.


Lemma optical_fig_ok df col mjd mag err :
  texts df !! "Filter" = Some col -> floats df !! "MJD" = Some mjd ->
  floats df !! "Magnitude" = Some mag -> floats df !! "Error" = Some err ->
  optical_fig (Some (Ok df)) =
    {| m_data := group_trace col mjd mag err <$> group_keys col;
       m_annotations := [] |}.
Proof.
  intros Hcol Hmjd Hmag Herr. unfold optical_fig, getitem_text. rewrite Hcol.
  by rewrite (optical_loop_ok df col mjd mag err).
Qed.

(** X14: for a photometry file with a [Filter] column that holds text and
    its three columns of numbers, the optical panel has no message and one
    trace for each filter that occurs in the [Filter] column: no name comes
    twice, and together the traces hold each row that has a filter exactly
    once; the rows without a filter are left out. *)
Theorem optical_fig_groups df col mjd mag err :
  wf_frame df ->
  texts df !! "Filter" = Some col -> floats df !! "MJD" = Some mjd ->
  floats df !! "Magnitude" = Some mag -> floats df !! "Error" = Some err ->
  m_annotations (optical_fig (Some (Ok df))) = [] /\
  NoDup (m_name <$> m_data (optical_fig (Some (Ok df)))) /\
  (forall k, k ∈ (m_name <$> m_data (optical_fig (Some (Ok df)))) <-> Some k ∈ col) /\
  sum_list_with (fun t => length (m_x t)) (m_data (optical_fig (Some (Ok df))))
  = length (omap (fun c : option string => c) col).
Proof.
  intros Hwf Hcol Hmjd Hmag Herr.
  rewrite (optical_fig_ok df col mjd mag err) by done.
  cbn [m_data m_annotations]. rewrite <- list_fmap_compose.
  assert (Hnames : (m_name ∘ group_trace col mjd mag err) <$> group_keys col
                   = group_keys col).
  { rewrite <- (list_fmap_id (group_keys col)) at 2. by apply list_fmap_ext. }
  rewrite Hnames. split; [done|]. split; [apply group_keys_NoDup|].
  split; [intros k; apply elem_of_group_keys|].
  rewrite <- sum_rows_of_group_keys.
  assert (Hlen : length mjd = length col).
  { destruct Hwf as [Hf Ht]. by rewrite (Hf _ _ Hmjd), (Ht _ _ Hcol). }
  clear Hnames. induction (group_keys col) as [|k ks IH]; [done|].
  cbn [fmap list_fmap sum_list_with]. cbn [fmap] in IH. rewrite IH.
  cbn [group_trace m_x]. by rewrite select_length_mask.
Qed.

(** X15: each point of an optical trace is the time and the magnitude of one
    row whose filter is the name of the trace, every such row gives a point,
    and the points keep the order of the file. *)
Theorem optical_points_of_rows df col mjd mag err t :
  texts df !! "Filter" = Some col -> floats df !! "MJD" = Some mjd ->
  floats df !! "Magnitude" = Some mag -> floats df !! "Error" = Some err ->
  t ∈ m_data (optical_fig (Some (Ok df))) ->
  zip (m_x t) (m_y t) `sublist_of` zip mjd mag /\
  forall u v, (u, v) ∈ zip (m_x t) (m_y t) <->
    exists i, col !! i = Some (Some (m_name t)) /\ mjd !! i = Some u /\
              mag !! i = Some v.
Proof.
  intros Hcol Hmjd Hmag Herr.
  rewrite (optical_fig_ok df col mjd mag err) by done. cbn [m_data].
  intros (k & -> & _)%list_elem_of_fmap. cbn [group_trace m_x m_y m_name].
  destruct (select_points (group_mask col k) mjd mag) as [Hsub Hpts].
  split; [exact Hsub|]. intros u v. rewrite Hpts. unfold group_mask.
  split; intros (i & Hi & Hu & Hv); exists i; (split; [|done]).
  - rewrite list_lookup_fmap in Hi.
    destruct (col !! i) as [c|]; [|discriminate]. cbn in Hi.
    injection Hi as Hi. by apply bool_decide_eq_true_1 in Hi as ->.
  - rewrite list_lookup_fmap, Hi. cbn. by rewrite bool_decide_eq_true_2.
Qed.

End OpticalFacts.

(** * The X-ray panel without an SNR column *)

Section XrayNoSnr.
Import Xray.

Lemma zeros_lookup df i s : zeros df !! i = Some s -> s = F64.zero.
Proof. unfold zeros. by intros [-> _]%lookup_replicate. Qed.

(** X17: a file without the SNR column.  With a threshold above 0 every
    row is an upper limit and there is no detection; with the threshold 0 a
    row is a detection exactly when its flux is not 0. *)
Theorem xray_without_snr_column df thr l i f :
  wf_frame df -> xray_locals df thr = Ok l ->
  floats df !! "src_flux_SNR" = None -> src_flux l !! i = Some f ->
  (F64.ltb F64.zero thr = true ->
   ul_mask l !! i = Some true /\ det_mask l !! i = Some false) /\
  (F64.eqb thr F64.zero = true ->
   ul_mask l !! i = Some (F64.eqb f F64.zero) /\
   det_mask l !! i = Some (negb (F64.eqb f F64.zero))).
Proof.
  intros Hwf Hok Hnone Hf.
  destruct (xray_row _ _ _ _ _ Hwf Hok Hf) as (s & lab & Hs & _ & Hul & Hdet & _).
  apply xray_locals_Ok in Hok as (_ & _ & Hsnr & _).
  rewrite Hsnr, Hnone in Hs. cbn in Hs. apply zeros_lookup in Hs as ->.
  rewrite Hul, Hdet. split.
  - intros Hlt. rewrite Hlt, orb_true_r. cbn [negb]. by rewrite andb_false_r.
  - intros Hz.
    assert (F64.ltb F64.zero thr = false /\ F64.geb F64.zero thr = true) as [-> ->].
    { revert Hz. unfold F64.eqb, F64.ltb, F64.geb, F64.zero, SFeqb, SFltb, SFleb.
      by destruct thr as [[]|[]| |[] ? ?]. }
    by rewrite orb_false_r.
Qed.
End XrayNoSnr.

(** * The properties above on sample data *)

Section MoreWitnesses.
Import Xray UvotPanel Catalogue Optical MoreSamples.

Lemma xray_without_snr_column_witness :
  exists l,
    xray_locals Samples.no_snr_column (F64.of_Z 3) = Ok l /\
    (F64.ltb F64.zero (F64.of_Z 3) = true ->
     ul_mask l !! 0%nat = Some true /\ det_mask l !! 0%nat = Some false) /\
    (F64.eqb (F64.of_Z 3) F64.zero = true ->
     ul_mask l !! 0%nat = Some (F64.eqb F64.one F64.zero) /\
     det_mask l !! 0%nat = Some (negb (F64.eqb F64.one F64.zero))).
Proof.
  eexists. split; [vm_compute; reflexivity|].
  apply (xray_without_snr_column Samples.no_snr_column (F64.of_Z 3) _ 0%nat F64.one).
  - split; apply (bool_decide_unpack _); vm_compute; exact I.
  - vm_compute; reflexivity.
  - vm_compute; reflexivity.
  - reflexivity.
Defined.

Lemma typed_four_rows : typed_xray Samples.four_rows.
Proof. split; [|reflexivity]. apply (bool_decide_unpack _). vm_compute. exact I. Qed.

Lemma xray_raises_iff_required_missing_witness :
  (is_ok (xray_locals Samples.four_rows (F64.of_Z 3)) = true
   <-> has_required Samples.four_rows) /\
  (forall e, xray_locals Samples.four_rows (F64.of_Z 3) = Raise e ->
     exists col, e = KeyError col /\ col ∈ "best_model" :: required_columns /\
       floats Samples.four_rows !! col = None /\
       texts Samples.four_rows !! col = None).
Proof. exact (xray_raises_iff_required_missing _ _ typed_four_rows). Defined.

Lemma xray_fig_outcomes_witness :
  let file := Some (Ok Samples.four_rows) in
  let thr := F64.of_Z 3 in
  (file = None /\
   xray_fig file thr =
     {| data := []; annotations := ["No X-ray data available"] |}) \/
  (exists read, file = Some read /\
     (is_ok read = false \/
      exists df col, read = Ok df /\ col ∈ "best_model" :: required_columns /\
        floats df !! col = None /\ texts df !! col = None) /\
     xray_fig file thr =
       {| data := []; annotations := ["Error loading X-ray data"] |}) \/
  (exists df l, file = Some (Ok df) /\ has_required df /\
     xray_locals df thr = Ok l /\
     xray_fig file thr =
       {| data := List.filter (fun t => negb (bool_decide (x t = [])))
                    [group_src l; group_pl l; group_bb l; group_ul l];
          annotations := [] |}).
Proof.
  intros file thr. apply (xray_fig_outcomes file thr).
  intros df [= <-]. exact typed_four_rows.
Defined.

Lemma uvot_fig_with_mjd_witness :
  m_annotations (uvot_fig (Some (Ok uvot_two_filters))) = [] /\
  m_name <$> m_data (uvot_fig (Some (Ok uvot_two_filters))) = ["UVOT W1"; "UVOT VV"] /\
  Forall (uvot_trace_of uvot_two_filters [F64.of_Z 58000; F64.of_Z 58001])
    (m_data (uvot_fig (Some (Ok uvot_two_filters)))).
Proof.
  apply uvot_fig_with_mjd; [|vm_compute; reflexivity].
  apply (bool_decide_unpack _). vm_compute. exact I.
Defined.


Lemma load_named : load named = Item named_loaded.
Proof. vm_compute; reflexivity. Qed.

Lemma load_nameless : load nameless = Item nameless_loaded.
Proof. vm_compute; reflexivity. Qed.

Lemma load_links_witness :
  Forall (fun '(link_cell, base, name) =>
            (link_cell = None <-> filled name = false) /\
            forall link, link_cell = Some link ->
              exists n id,
                name = Some n /\ id <> EmptyString /\
                PyText.has_space id = false /\
                link = String.append "[" (String.append n (String.append "]("
                         (String.append base (String.append id ")")))))
    [(l_AT_name named_loaded, base_url_at, AT_name named);
     (l_ZTF_name named_loaded, base_url_ztf, ZTF_name named);
     (l_Gaia_alert_name named_loaded, base_url_gaia, Gaia_alert_name named)].
Proof. apply (load_links named named_loaded). vm_compute; reflexivity. Defined.

Lemma name_for_file_missing_iff_witness :
  name_for_file nameless_loaded =
    (if filled (AT_name nameless) || filled (Alternative_name nameless)
     then Some (AT_name_plain nameless) else PyStr.strip <$> ZTF_name nameless) /\
  (name_for_file nameless_loaded = None <->
     filled (AT_name nameless) = false /\ filled (Alternative_name nameless) = false /\
     ZTF_name nameless = None) /\
  (optical_file_name nameless_loaded = Raise TypeError <->
     name_for_file nameless_loaded = None) /\
  (forall n, name_for_file nameless_loaded = Some n ->
     optical_file_name nameless_loaded
     = Ok (String.append "target_" (String.append n "_photometry.csv"))).
Proof. apply name_for_file_missing_iff. vm_compute; reflexivity. Defined.

Lemma spec_name_is_name_for_file_witness :
  spec_name named_loaded = name_for_file named_loaded.
Proof. apply (spec_name_is_name_for_file named). vm_compute; reflexivity. Defined.

Lemma wf_optical_rg : wf_frame optical_rg.
Proof. split; apply (bool_decide_unpack _); vm_compute; exact I. Qed.

Lemma optical_fig_groups_witness :
  m_annotations (optical_fig (Some (Ok optical_rg))) = [] /\
  NoDup (m_name <$> m_data (optical_fig (Some (Ok optical_rg)))) /\
  (forall k, k ∈ (m_name <$> m_data (optical_fig (Some (Ok optical_rg))))
             <-> Some k ∈ [Some "r"; Some "g"; None; Some "r"]) /\
  sum_list_with (fun t => length (m_x t)) (m_data (optical_fig (Some (Ok optical_rg))))
  = 3%nat.
Proof.
  apply (optical_fig_groups optical_rg [Some "r"; Some "g"; None; Some "r"]
           [F64.of_Z 1; F64.of_Z 2; F64.of_Z 3; F64.of_Z 4]
           [F64.of_Z 15; F64.of_Z 16; F64.of_Z 17; F64.of_Z 18]
           [F64.one; F64.one; F64.one; F64.one]).
  - exact wf_optical_rg.
  - vm_compute; reflexivity.
  - vm_compute; reflexivity.
  - vm_compute; reflexivity.
  - vm_compute; reflexivity.
Defined.

Lemma optical_points_of_rows_witness :
  let t := group_trace [Some "r"; Some "g"; None; Some "r"]
             [F64.of_Z 1; F64.of_Z 2; F64.of_Z 3; F64.of_Z 4]
             [F64.of_Z 15; F64.of_Z 16; F64.of_Z 17; F64.of_Z 18]
             [F64.one; F64.one; F64.one; F64.one] "r" in
  zip (m_x t) (m_y t) `sublist_of`
    zip [F64.of_Z 1; F64.of_Z 2; F64.of_Z 3; F64.of_Z 4]
        [F64.of_Z 15; F64.of_Z 16; F64.of_Z 17; F64.of_Z 18] /\
  forall u v, (u, v) ∈ zip (m_x t) (m_y t) <->
    exists i, [Some "r"; Some "g"; None; Some "r"] !! i = Some (Some (m_name t)) /\
              [F64.of_Z 1; F64.of_Z 2; F64.of_Z 3; F64.of_Z 4] !! i = Some u /\
              [F64.of_Z 15; F64.of_Z 16; F64.of_Z 17; F64.of_Z 18] !! i = Some v.
Proof.
  intros t.
  apply (optical_points_of_rows optical_rg [Some "r"; Some "g"; None; Some "r"]
           [F64.of_Z 1; F64.of_Z 2; F64.of_Z 3; F64.of_Z 4]
           [F64.of_Z 15; F64.of_Z 16; F64.of_Z 17; F64.of_Z 18]
           [F64.one; F64.one; F64.one; F64.one] t).
  - vm_compute; reflexivity.
  - vm_compute; reflexivity.
  - vm_compute; reflexivity.
  - vm_compute; reflexivity.
  - rewrite (optical_fig_ok optical_rg [Some "r"; Some "g"; None; Some "r"]
               [F64.of_Z 1; F64.of_Z 2; F64.of_Z 3; F64.of_Z 4]
               [F64.of_Z 15; F64.of_Z 16; F64.of_Z 17; F64.of_Z 18]
               [F64.one; F64.one; F64.one; F64.one]) by (vm_compute; reflexivity).
    cbn [m_data]. apply list_elem_of_fmap. exists "r". split; [reflexivity|].
    apply (bool_decide_unpack _). vm_compute. exact I.
Defined.

End MoreWitnesses.
